(** * EnterFix / KeySwap for ChatGPT: a shallow embedding of the key remapper

    The repository holds three content scripts, a background script and the
    popup script of the settings UI:

    - [KeySwap]    : the configurable remapper with the fake-event guard flag
                     (first script of [src/unnamed/part_000], lines 1-259);
    - [KeySwapAlt] : the configurable remapper without a guard flag, whose
                     built-in defaults are Alt+Enter / Enter
                     (second script of [src/unnamed/part_000], lines 261-480);
    - [EnterFix]   : the settings-free content script [src/content.js];
    - [Background] : the install listener of [src/background.js], lines 1-42;
    - [Popup]      : the settings UI of [src/background.js], lines 44-159.

    JavaScript strings are [string], [===] on strings is [String.eqb], the
    DOM calls a handler makes are returned as a list of [Effect]s, and the
    timers of [setTimeout] are kept in an explicit queue. *)

From Stdlib Require Import String List Bool Arith Lia.
From stdpp Require Import base gmap strings.
Import ListNotations.

Local Open Scope string_scope.
Local Open Scope list_scope.

Notation "a === b" := (String.eqb a b) (at level 70, no associativity).

(** ** Data shared by the scripts *)

(** The fields of a [KeyboardEvent] that the scripts read or set.  An
    element is named by its position in the document; the [target] of an
    event is [null] until the event is dispatched. *)
Record KeyboardEvent := mkKeyboardEvent {
  target : option nat;
  key : string;
  code : string;
  keyCode : nat;
  which : nat;
  shiftKey : bool;
  altKey : bool;
  ctrlKey : bool;
  metaKey : bool;
  bubbles : bool;
  cancelable : bool;
  composed : bool
}.

(** What [dispatchEvent] does to the event object before the listeners
    see it. *)
Definition withTarget (t : option nat) (e : KeyboardEvent) : KeyboardEvent :=
  mkKeyboardEvent t (key e) (code e) (keyCode e) (which e)
                  (shiftKey e) (altKey e) (ctrlKey e) (metaKey e)
                  (bubbles e) (cancelable e) (composed e).

(** The two-field settings object. *)
Record Settings := mkSettings {
  sendAction : string;
  newlineAction : string
}.

(** A button of the host page. *)
Record Button := mkButton {
  buttonId : nat;
  disabled : bool
}.

(** What [document.querySelector] answers for the three selectors of the
    send button, in the order the scripts try them. *)
Record Document := mkDocument {
  qsTestId : option Button;      (* '[data-testid="send-button"]' *)
  qsAriaLabel : option Button;   (* 'button[aria-label="Send message"]' *)
  qsStructural : option Button   (* '.absolute.md\\:bottom-3 button' *)
}.

#[local] Set Warnings "-register-all".

(** The calls a handler makes, in program order.  The callback of a
    [setTimeout] is the list of calls it makes when it fires. *)
Inductive Effect :=
| PreventDefault
| StopImmediatePropagation
| Click (b : Button)
| SetProcessingFakeEvent (v : bool)
| DispatchEvent (on : option nat) (e : KeyboardEvent)
| SetTimeout (callback : list Effect) (delay : nat).

(** [a || b || c] on element-or-null values: the first one that is not null. *)
Definition orElse {A} (a b : option A) : option A :=
  match a with Some x => Some x | None => b end.

(** JavaScript truthiness of a string, and of a string that may be
    [null] or [undefined]. *)
Definition truthyString (s : string) : bool := negb (s === "").

Definition truthy (v : option string) : bool :=
  match v with
  | Some s => truthyString s
  | None => false
  end.

(** [v === s] for a value that may be [undefined]. *)
Definition optionStrictEq (v : option string) (s : string) : bool :=
  match v with
  | Some x => x === s
  | None => false
  end.

Notation "v ==? s" := (optionStrictEq v s) (at level 70, no associativity).

(** ** chrome.storage.sync

    The store is a finite map from keys to string values.  [get] with an
    object argument is the API's read-with-defaults: a key absent from the
    store is answered with the value the argument gives for it.  A call can
    fail (the promise rejects), which [None] stands for. *)
Module ChromeStorage.

Record Sync := mkSync {
  items : gmap string string;
  failing : bool
}.

Definition get (defaults : Settings) (st : Sync) : option Settings :=
  if failing st then None
  else Some {| sendAction := default (sendAction defaults) (items st !! "sendAction");
               newlineAction := default (newlineAction defaults) (items st !! "newlineAction") |}.

Definition set (s : Settings) (st : Sync) : option Sync :=
  if failing st then None
  else Some {| items := <["sendAction" := sendAction s]>
                          (<["newlineAction" := newlineAction s]> (items st));
               failing := failing st |}.

End ChromeStorage.

(** ** The page a content script runs in *)

(** A DOM element, with what the scripts store on it. *)
Record Element := mkElement {
  classProseMirror : bool;           (* matches '.ProseMirror' *)
  keySwapHandler : option nat;       (* the expando property: a closure, by identity *)
  keydownCapture : list nat;         (* capture-phase keydown listeners of the script *)
  dataset : gmap string string       (* data-* attributes, by camel-cased name *)
}.

Record Timer := mkTimer {
  due : nat;
  callback : list Effect
}.

(** The state of one tab: the script's globals, the elements of the
    document in document order, the send-button queries, the timer queue,
    and the record of each handler call with the calls it made. *)
Record Page := mkPage {
  currentSettings : Settings;
  isProcessingFakeEvent : bool;
  elements : list Element;
  closures : nat;
  document : Document;
  clock : nat;
  timers : list Timer;
  history : list (KeyboardEvent * list Effect)
}.

Definition withSettings (s : Settings) (p : Page) : Page :=
  mkPage s (isProcessingFakeEvent p) (elements p) (closures p) (document p)
         (clock p) (timers p) (history p).

Definition withProcessingFakeEvent (v : bool) (p : Page) : Page :=
  mkPage (currentSettings p) v (elements p) (closures p) (document p)
         (clock p) (timers p) (history p).

Definition withElements (els : list Element) (n : nat) (p : Page) : Page :=
  mkPage (currentSettings p) (isProcessingFakeEvent p) els n (document p)
         (clock p) (timers p) (history p).

Definition withClock (t : nat) (p : Page) : Page :=
  mkPage (currentSettings p) (isProcessingFakeEvent p) (elements p) (closures p)
         (document p) t (timers p) (history p).

Definition withTimers (ts : list Timer) (p : Page) : Page :=
  mkPage (currentSettings p) (isProcessingFakeEvent p) (elements p) (closures p)
         (document p) (clock p) ts (history p).

Definition recordCall (e : KeyboardEvent) (effs : list Effect) (p : Page) : Page :=
  mkPage (currentSettings p) (isProcessingFakeEvent p) (elements p) (closures p)
         (document p) (clock p) (timers p) (history p ++ [(e, effs)]).

(** Timers fire in order of their due time, and in order of registration
    among equal due times. *)
Fixpoint schedule (t : Timer) (ts : list Timer) : list Timer :=
  match ts with
  | [] => [t]
  | u :: rest => if Nat.ltb (due t) (due u) then t :: ts else u :: schedule t rest
  end.

(** [addEventListener('keydown', h, true)]: a listener already registered
    is not registered twice. *)
Definition addEventListener (h : nat) (el : Element) : Element :=
  mkElement (classProseMirror el) (keySwapHandler el)
            (if existsb (Nat.eqb h) (keydownCapture el) then keydownCapture el
             else keydownCapture el ++ [h])
            (dataset el).

(** [removeEventListener('keydown', h, true)]. *)
Definition removeEventListener (h : nat) (el : Element) : Element :=
  mkElement (classProseMirror el) (keySwapHandler el)
            (List.filter (fun g => negb (Nat.eqb h g)) (keydownCapture el))
            (dataset el).

Definition setKeySwapHandler (v : option nat) (el : Element) : Element :=
  mkElement (classProseMirror el) v (keydownCapture el) (dataset el).

Definition setDataset (name v : string) (el : Element) : Element :=
  mkElement (classProseMirror el) (keySwapHandler el) (keydownCapture el)
            (<[name := v]> (dataset el)).

(** ** The event loop

    [handler] is the keydown listener installed on the editor.  [perform]
    carries out the calls of a listener or timer callback; dispatching an
    event runs the listener on it before the next call is made.  The fuel
    bounds the number of calls: [None] means it ran out. *)
Section EventLoop.

Variable handler : Page -> KeyboardEvent -> list Effect.

Fixpoint perform (fuel : nat) (effs : list Effect) (p : Page) : option Page :=
  match fuel with
  | O => None
  | S fuel' =>
    match effs with
    | [] => Some p
    | PreventDefault :: rest => perform fuel' rest p
    | StopImmediatePropagation :: rest => perform fuel' rest p
    | Click _ :: rest => perform fuel' rest p
    | SetProcessingFakeEvent v :: rest =>
        perform fuel' rest (withProcessingFakeEvent v p)
    | SetTimeout cb delay :: rest =>
        perform fuel' rest
          (withTimers (schedule (mkTimer (clock p + delay) cb) (timers p)) p)
    | DispatchEvent on e :: rest =>
        let e := withTarget on e in
        match perform fuel' (handler p e) (recordCall e (handler p e) p) with
        | Some p' => perform fuel' rest p'
        | None => None
        end
    end
  end.

(** A key press of the user on the editor. *)
Definition keydown (fuel : nat) (e : KeyboardEvent) (p : Page) : option Page :=
  perform fuel (handler p e) (recordCall e (handler p e) p).

(** The next timer fires. *)
Definition fire (fuel : nat) (p : Page) : option Page :=
  match timers p with
  | [] => Some p
  | t :: rest => perform fuel (callback t) (withClock (Nat.max (clock p) (due t)) (withTimers rest p))
  end.

(** Timers fire until none is pending; [None] when [rounds] timers were
    not enough or a callback ran out of fuel. *)
Fixpoint settle (rounds fuel : nat) (p : Page) : option Page :=
  match timers p with
  | [] => Some p
  | _ :: _ =>
    match rounds with
    | O => None
    | S rounds' =>
      match fire fuel p with
      | Some p' => settle rounds' fuel p'
      | None => None
      end
    end
  end.

(** A key press followed by every timer it leads to, with nothing else
    happening in between. *)
Definition press (rounds fuel : nat) (e : KeyboardEvent) (p : Page) : option Page :=
  match keydown fuel e p with
  | Some p' => settle rounds fuel p'
  | None => None
  end.

End EventLoop.

(** A message of [chrome.runtime.onMessage]. *)
Record Message := mkMessage {
  type : string;
  settings : Settings
}.

(** [document.querySelectorAll('.ProseMirror').forEach(f)]: [f] is applied
    to the matching elements in document order.  The elements are mutated
    in place; [n] counts the closures created so far, so that each new
    handler function has an identity of its own. *)
Fixpoint forEachProseMirror (f : nat -> Element -> Element * nat)
    (els : list Element) (n : nat) : list Element * nat :=
  match els with
  | [] => ([], n)
  | el :: rest =>
    if classProseMirror el then
      let (el', n') := f n el in
      let (rest', n'') := forEachProseMirror f rest n' in
      (el' :: rest', n'')
    else
      let (rest', n') := forEachProseMirror f rest n in
      (el :: rest', n')
  end.

(** [document.querySelector('.ProseMirror')] followed by an update of the
    element found: only the first match in document order is touched. *)
Fixpoint onFirstProseMirror (f : nat -> Element -> Element * nat)
    (els : list Element) (n : nat) : list Element * nat :=
  match els with
  | [] => ([], n)
  | el :: rest =>
    if classProseMirror el then
      let (el', n') := f n el in (el' :: rest, n')
    else
      let (rest', n') := onFirstProseMirror f rest n in
      (el :: rest', n')
  end.

(** ** The remapper with the guard flag (part_000, lines 1-259) *)
Module KeySwap.

Definition DEFAULT_SETTINGS : Settings :=
  {| sendAction := "Enter"; newlineAction := "Shift+Enter" |}.

Definition isKeyMatch (event : KeyboardEvent) (action : string) : bool :=
  if negb (key event === "Enter") then false
  else if action === "Enter" then
    negb (shiftKey event) && negb (altKey event) && negb (ctrlKey event) && negb (metaKey event)
  else if action === "Shift+Enter" then
    shiftKey event && negb (altKey event) && negb (ctrlKey event) && negb (metaKey event)
  else if action === "Alt+Enter" then
    altKey event && negb (shiftKey event) && negb (ctrlKey event) && negb (metaKey event)
  else if action === "Ctrl+Enter" then
    ctrlKey event && negb (shiftKey event) && negb (altKey event) && negb (metaKey event)
  else false.

(** The second parameter of the source function is not used by it, and the
    option [isFakeKeySwapEvent] is not a member of the KeyboardEvent init
    dictionary and is read nowhere; both are left out. *)
Definition createFakeEvent (targetAction : string) : KeyboardEvent :=
  {| target := None;
     key := "Enter"; code := "Enter"; keyCode := 13; which := 13;
     bubbles := true; cancelable := true; composed := true;
     shiftKey := targetAction === "Shift+Enter";
     altKey := targetAction === "Alt+Enter";
     ctrlKey := targetAction === "Ctrl+Enter";
     metaKey := false |}.

Definition removeExistingHandler (proseEditor : Element) : Element :=
  let proseEditor :=
    match keySwapHandler proseEditor with
    | Some h => setKeySwapHandler None (removeEventListener h proseEditor)
    | None => proseEditor
    end in
  setDataset "keySwapAttached" "false" proseEditor.

(** The send button: the first selector that finds an element. *)
Definition sendButton (document : Document) : option Button :=
  orElse (qsTestId document) (orElse (qsAriaLabel document) (qsStructural document)).

(** The tail of [keyHandler], reached with the two locals as the branches
    above left them. *)
Definition convertNewline (event : KeyboardEvent) (shouldPreventDefault : bool)
    (targetAction : option string) : list Effect :=
  if shouldPreventDefault && truthy targetAction then
    [ PreventDefault; StopImmediatePropagation;
      SetProcessingFakeEvent true;
      SetTimeout [ DispatchEvent (target event) (createFakeEvent (default "" targetAction));
                   SetTimeout [ SetProcessingFakeEvent false ] 50 ] 10 ]
  else [].

(** The listener.  It reads the globals [currentSettings] and
    [isProcessingFakeEvent] when it is called, not when it is created. *)
Definition keyHandler (currentSettings : Settings) (isProcessingFakeEvent : bool)
    (document : Document) (event : KeyboardEvent) : list Effect :=
  if negb (key event === "Enter") then []
  else if isProcessingFakeEvent then []
  else if isKeyMatch event (newlineAction currentSettings) then
    if newlineAction currentSettings === "Shift+Enter" then []
    else convertNewline event true (Some "Shift+Enter")
  else if isKeyMatch event (sendAction currentSettings) then
    if sendAction currentSettings === "Enter" then []
    else
      PreventDefault :: StopImmediatePropagation ::
      match sendButton document with
      | Some b => if negb (disabled b) then [Click b] else []
      | None => []
      end
  else convertNewline event false None.

Definition listener (p : Page) (event : KeyboardEvent) : list Effect :=
  keyHandler (currentSettings p) (isProcessingFakeEvent p) (document p) event.

(** [keyHandler] is the identity of the closure this call creates. *)
Definition attachKeyHandler (keyHandler : nat) (proseEditor : Element) : Element :=
  let proseEditor := removeExistingHandler proseEditor in
  let proseEditor := setKeySwapHandler (Some keyHandler) proseEditor in
  let proseEditor := addEventListener keyHandler proseEditor in
  setDataset "keySwapAttached" "true" proseEditor.

Definition loadSettings (store : ChromeStorage.Sync) (p : Page) : Page :=
  match ChromeStorage.get DEFAULT_SETTINGS store with
  | Some result => withSettings result p
  | None => withSettings DEFAULT_SETTINGS p
  end.

Definition tryAttachHandler (p : Page) : Page :=
  let (els, n) :=
    forEachProseMirror
      (fun n proseEditor =>
         if negb (truthy (dataset proseEditor !! "keySwapAttached"))
            || (dataset proseEditor !! "keySwapAttached" ==? "false")
         then (attachKeyHandler n proseEditor, S n)
         else (proseEditor, n))
      (elements p) (closures p) in
  withElements els n p.

Definition onMessage (message : Message) (p : Page) : Page :=
  if type message === "SETTINGS_UPDATED" then
    let p := withSettings (settings message) p in
    let p := withProcessingFakeEvent false p in
    let (els, n) :=
      forEachProseMirror
        (fun n proseEditor =>
           (attachKeyHandler n (removeExistingHandler proseEditor), S n))
        (elements p) (closures p) in
    withElements els n p
  else p.

End KeySwap.

(** ** The remapper without a guard flag (part_000, lines 261-480) *)
Module KeySwapAlt.

Definition DEFAULT_SETTINGS : Settings :=
  {| sendAction := "Alt+Enter"; newlineAction := "Enter" |}.

Definition isKeyMatch (event : KeyboardEvent) (action : string) : bool :=
  if negb (key event === "Enter") then false
  else if action === "Enter" then
    negb (shiftKey event) && negb (altKey event) && negb (ctrlKey event) && negb (metaKey event)
  else if action === "Shift+Enter" then
    shiftKey event && negb (altKey event) && negb (ctrlKey event) && negb (metaKey event)
  else if action === "Alt+Enter" then
    altKey event && negb (shiftKey event) && negb (ctrlKey event) && negb (metaKey event)
  else false.

Definition createFakeEvent (targetAction : string) : KeyboardEvent :=
  {| target := None;
     key := "Enter"; code := "Enter"; keyCode := 13; which := 13;
     bubbles := true; cancelable := true; composed := true;
     shiftKey := targetAction === "Shift+Enter";
     altKey := targetAction === "Alt+Enter";
     ctrlKey := false;
     metaKey := false |}.

Definition removeExistingHandler (proseEditor : Element) : Element :=
  match keySwapHandler proseEditor with
  | Some h => setKeySwapHandler None (removeEventListener h proseEditor)
  | None => proseEditor
  end.

Definition sendButton (document : Document) : option Button :=
  orElse (qsTestId document) (orElse (qsAriaLabel document) (qsStructural document)).

(** The tail of [keyHandler]: the conversion, by button click or by a
    fake event after 10 ms. *)
Definition convert (document : Document) (event : KeyboardEvent)
    (shouldPreventDefault : bool) (targetAction : option string) : list Effect :=
  if shouldPreventDefault && truthy targetAction then
    let fake :=
      [ SetTimeout [ DispatchEvent (target event)
                       (createFakeEvent (default "" targetAction)) ] 10 ] in
    PreventDefault :: StopImmediatePropagation ::
    (if targetAction ==? "Enter" then
       match sendButton document with
       | Some b => if negb (disabled b) then [Click b] else fake
       | None => fake
       end
     else fake)
  else [].

Definition keyHandler (currentSettings : Settings) (document : Document)
    (event : KeyboardEvent) : list Effect :=
  if negb (key event === "Enter") then []
  else if isKeyMatch event (newlineAction currentSettings) then
    if newlineAction currentSettings === "Enter"
    then convert document event true (Some "Shift+Enter")
    else convert document event false None
  else if isKeyMatch event (sendAction currentSettings) then
    if negb (sendAction currentSettings === "Enter")
    then convert document event true (Some "Enter")
    else convert document event false None
  else convert document event false None.

Definition listener (p : Page) (event : KeyboardEvent) : list Effect :=
  keyHandler (currentSettings p) (document p) event.

Definition attachKeyHandler (keyHandler : nat) (proseEditor : Element) : Element :=
  let proseEditor := removeExistingHandler proseEditor in
  let proseEditor := setKeySwapHandler (Some keyHandler) proseEditor in
  let proseEditor := addEventListener keyHandler proseEditor in
  setDataset "keySwapAttached" "true" proseEditor.

Definition loadSettings (store : ChromeStorage.Sync) (p : Page) : Page :=
  match ChromeStorage.get DEFAULT_SETTINGS store with
  | Some result => withSettings result p
  | None => withSettings DEFAULT_SETTINGS p
  end.

Definition tryAttachHandler (p : Page) : Page :=
  let (els, n) :=
    onFirstProseMirror
      (fun n proseEditor =>
         if negb (truthy (dataset proseEditor !! "keySwapAttached"))
         then (attachKeyHandler n proseEditor, S n)
         else (proseEditor, n))
      (elements p) (closures p) in
  withElements els n p.

(** This script has no guard flag: the message leaves that field of the
    page alone. *)
Definition onMessage (message : Message) (p : Page) : Page :=
  if type message === "SETTINGS_UPDATED" then
    let p := withSettings (settings message) p in
    let (els, n) :=
      onFirstProseMirror
        (fun n proseEditor =>
           (attachKeyHandler n (setDataset "keySwapAttached" "false" proseEditor), S n))
        (elements p) (closures p) in
    withElements els n p
  else p.

End KeySwapAlt.

(** ** The settings-free content script (content.js) *)
Module EnterFix.

(** [new KeyboardEvent('keydown', {key, code, shiftKey: true, bubbles,
    cancelable})]: the members not given take the defaults of the init
    dictionary. *)
Definition fakeShiftEnterEvent : KeyboardEvent :=
  {| target := None;
     key := "Enter"; code := "Enter"; keyCode := 0; which := 0;
     shiftKey := true; altKey := false; ctrlKey := false; metaKey := false;
     bubbles := true; cancelable := true; composed := false |}.

(** The listener of [attachEnterKeyHandler].  The fake event is dispatched
    from inside the listener, on the target of the event it is handling. *)
Definition keydownListener (e : KeyboardEvent) : list Effect :=
  if (key e === "Enter") && negb (shiftKey e) && negb (altKey e) then
    [ PreventDefault; StopImmediatePropagation;
      DispatchEvent (target e) fakeShiftEnterEvent ]
  else [].

Definition listener (p : Page) (e : KeyboardEvent) : list Effect :=
  keydownListener e.

Definition attachEnterKeyHandler (closure : nat) (prose : Element) : Element * nat :=
  if dataset prose !! "enterFixAttached" ==? "true" then (prose, closure)
  else (addEventListener closure (setDataset "enterFixAttached" "true" prose), S closure).

Definition tryAttachHandler (p : Page) : Page :=
  let (els, n) := onFirstProseMirror attachEnterKeyHandler (elements p) (closures p) in
  withElements els n p.

End EnterFix.

(** ** The background script (background.js, lines 1-42) *)
Module Background.

Definition DEFAULT_SETTINGS : Settings :=
  {| sendAction := "Enter"; newlineAction := "Shift+Enter" |}.

(** The [onInstalled] listener; [reason] is [details.reason].  A rejected
    storage call is caught and nothing more is done. *)
Definition onInstalled (reason : string) (store : ChromeStorage.Sync) : ChromeStorage.Sync :=
  if (reason === "install") || (reason === "update") then
    match ChromeStorage.get DEFAULT_SETTINGS store with
    | Some existingSettings =>
      if negb (truthyString (sendAction existingSettings))
         || negb (truthyString (newlineAction existingSettings))
      then
        match ChromeStorage.set DEFAULT_SETTINGS store with
        | Some store' => store'
        | None => store
        end
      else store
    | None => store
    end
  else store.

End Background.

(** ** The popup script (background.js, lines 44-159) *)
Module Popup.

Definition DEFAULT_SETTINGS : Settings :=
  {| sendAction := "Enter"; newlineAction := "Shift+Enter" |}.

(** The two select elements, by their [value].  Assigning [value] is taken
    to select the option of that value, which holds when each select offers
    the four chords (the markup of the popup is not part of the sources). *)
Record Selects := mkSelects {
  sendSelect : string;
  newlineSelect : string
}.

(** The element a change event is fired on, and its [id]. *)
Inductive Select := SendSelect | NewlineSelect.

Definition id (target : Select) : string :=
  match target with
  | SendSelect => "send-action"
  | NewlineSelect => "newline-action"
  end.

Definition value (target : Select) (ui : Selects) : string :=
  match target with
  | SendSelect => sendSelect ui
  | NewlineSelect => newlineSelect ui
  end.

Definition setValue (target : Select) (v : string) (ui : Selects) : Selects :=
  match target with
  | SendSelect => mkSelects v (newlineSelect ui)
  | NewlineSelect => mkSelects (sendSelect ui) v
  end.

Definition loadSettings (store : ChromeStorage.Sync) (ui : Selects) : Selects :=
  match ChromeStorage.get DEFAULT_SETTINGS store with
  | Some result => mkSelects (sendAction result) (newlineAction result)
  | None => ui
  end.

Definition availableOptions : list string :=
  ["Enter"; "Shift+Enter"; "Alt+Enter"; "Ctrl+Enter"].

(** [currentValues.includes(option)]. *)
Definition includes (currentValues : list string) (option : string) : bool :=
  existsb (fun v => v === option) currentValues.

Definition handleDuplicateKeys (changedSelect newValue : string) (ui : Selects) : Selects :=
  let otherSelect := if changedSelect === "send-action" then NewlineSelect else SendSelect in
  if value otherSelect ui === newValue then
    let currentValues := [sendSelect ui; newlineSelect ui] in
    let unusedOption :=
      List.find (fun option => negb (includes currentValues option)) availableOptions in
    match unusedOption with
    | Some o => if truthyString o then setValue otherSelect o ui else ui
    | None => ui
    end
  else ui.

(** [saveSettings]: the store after the write, and the message sent to
    each ChatGPT tab.  When the write is rejected nothing is sent. *)
Definition saveSettings (settings : Settings) (tabs : list nat)
    (store : ChromeStorage.Sync) : ChromeStorage.Sync * list (nat * Message) :=
  match ChromeStorage.set settings store with
  | Some store' =>
    (store', map (fun tab => (tab, mkMessage "SETTINGS_UPDATED" settings)) tabs)
  | None => (store, [])
  end.

(** The change listener of both selects.  The event fires after the
    browser has given the select the value the user chose, so
    [event.target.value] is read from the select itself.  The result is the
    selects, the settings handed to [saveSettings], the store and the
    messages. *)
Definition handleSettingChange (target : Select) (tabs : list nat)
    (ui : Selects) (store : ChromeStorage.Sync)
    : Selects * Settings * ChromeStorage.Sync * list (nat * Message) :=
  let changedSelect := id target in
  let newValue := value target ui in
  let ui := handleDuplicateKeys changedSelect newValue ui in
  let newSettings := {| sendAction := sendSelect ui; newlineAction := newlineSelect ui |} in
  let (store', sent) := saveSettings newSettings tabs store in
  (ui, newSettings, store', sent).

(** The user picks [chosen] in the select [target]; the change event
    follows. *)
Definition change (target : Select) (chosen : string) (tabs : list nat)
    (ui : Selects) (store : ChromeStorage.Sync)
    : Selects * Settings * ChromeStorage.Sync * list (nat * Message) :=
  handleSettingChange target tabs (setValue target chosen ui) store.

End Popup.

(** ** Vocabulary of the properties *)

(** The four chords of the settings UI, in its canonical order. *)
Definition chords : list string :=
  ["Enter"; "Shift+Enter"; "Alt+Enter"; "Ctrl+Enter"].

(** The modifier keys of an event: (shift, alt, ctrl, meta). *)
Definition modifiers (event : KeyboardEvent) : bool * bool * bool * bool :=
  (shiftKey event, altKey event, ctrlKey event, metaKey event).

(** The modifier keys a chord name stands for, read off the name: Shift,
    Alt or Ctrl when the name starts with it, and never Meta. *)
Definition impliedModifiers (chord : string) : bool * bool * bool * bool :=
  (chord === "Shift+Enter", chord === "Alt+Enter", chord === "Ctrl+Enter", false).

(** Whether a call clicks a button, now or from a timer it starts. *)
Fixpoint clicks (eff : Effect) : bool :=
  match eff with
  | Click _ => true
  | SetTimeout cb _ => existsb clicks cb
  | _ => false
  end.

(** Whether a call dispatches an event, now or from a timer it starts. *)
Fixpoint dispatches (eff : Effect) : bool :=
  match eff with
  | DispatchEvent _ _ => true
  | SetTimeout cb _ => existsb dispatches cb
  | _ => false
  end.

(** A real key press of Enter with the given modifier keys, on the
    element at position 0. *)
Definition enterPress (shift alt ctrl meta : bool) : KeyboardEvent :=
  {| target := Some 0; key := "Enter"; code := "Enter"; keyCode := 13; which := 13;
     shiftKey := shift; altKey := alt; ctrlKey := ctrl; metaKey := meta;
     bubbles := true; cancelable := true; composed := true |}.

(** The fallback of the remapper without a guard flag when the send button
    cannot be clicked: a timer of 10 ms that dispatches a plain-Enter
    keydown on the target of the event being handled. *)
Definition fakeSend (event : KeyboardEvent) : list Effect :=
  [ SetTimeout [ DispatchEvent (target event) (KeySwapAlt.createFakeEvent "Enter") ] 10 ].

(** The settings under which the two remappers differ most: Shift+Enter
    sends and Enter breaks the line. *)
Definition swapped : Settings :=
  {| sendAction := "Shift+Enter"; newlineAction := "Enter" |}.

(** A document whose first selector finds an enabled send button. *)
Definition withSendButton : Document :=
  mkDocument (Some (mkButton 1 false)) None None.

(** The control a change event is not fired on. *)
Definition otherControl (target : Popup.Select) : Popup.Select :=
  match target with
  | Popup.SendSelect => Popup.NewlineSelect
  | Popup.NewlineSelect => Popup.SendSelect
  end.

(** In the words of the specification: the first chord of the canonical
    list that neither control uses. *)
Definition firstUnusedChord (ui : Popup.Selects) : option string :=
  List.find (fun c => negb (Popup.sendSelect ui === c) && negb (Popup.newlineSelect ui === c))
            chords.

(** The listeners of an element are the one handler its expando property
    names, or none; and every closure on it was created before [n]. *)
Definition tracked (n : nat) (el : Element) : Prop :=
  keydownCapture el = match keySwapHandler el with Some h => [h] | None => [] end
  /\ forall h, In h (keydownCapture el) -> h < n.

Definition wellTracked (p : Page) : Prop :=
  Forall (tracked (closures p)) (elements p).

(** An editor after a rebinding that created the closures from [lo] up to
    [hi]: one listener, created in that range and named by the expando
    property, and the attached marker set; any other element is as it was. *)
Definition rebound (lo hi : nat) (el el' : Element) : Prop :=
  classProseMirror el' = classProseMirror el
  /\ if classProseMirror el
     then exists h, keydownCapture el' = [h]
                    /\ keySwapHandler el' = Some h
                    /\ lo <= h < hi
                    /\ dataset el' !! "keySwapAttached" = Some "true"
     else el' = el.

(** A ProseMirror editor with nothing attached, and another element. *)
Definition freshEditor : Element := mkElement true None [] ∅.

Definition otherElement : Element := mkElement false None [] ∅.

(** The message of the settings UI. *)
Definition SETTINGS_UPDATED (s : Settings) : Message :=
  mkMessage "SETTINGS_UPDATED" s.

(** A tab of the remapper without a guard flag that shows two editors,
    after the mutation observer has run once. *)
Definition twoEditors : Page :=
  KeySwapAlt.tryAttachHandler
    (mkPage KeySwapAlt.DEFAULT_SETTINGS false [freshEditor; freshEditor] 0
            (mkDocument None None None) 0 [] []).

(** A tab that shows an editor, another element and a second editor,
    with nothing attached yet. *)
Definition threeElements : Page :=
  mkPage {| sendAction := "Enter"; newlineAction := "Shift+Enter" |} false
         [freshEditor; otherElement; freshEditor] 0
         (mkDocument None None None) 0 [] [].

(** A store that answers, and holds nothing. *)
Definition emptyStore : ChromeStorage.Sync := ChromeStorage.mkSync ∅ false.

(** A store whose calls are rejected. *)
Definition brokenStore : ChromeStorage.Sync := ChromeStorage.mkSync ∅ true.

(** The keydown the host page reads as a line break, written out field by
    field: Enter with Shift down and no other modifier, not yet dispatched. *)
Definition shiftEnterKeydown : KeyboardEvent :=
  mkKeyboardEvent None "Enter" "Enter" 13 13 true false false false true true true.

(** The same for the chord the host page reads as send: a plain Enter. *)
Definition plainEnterKeydown : KeyboardEvent :=
  mkKeyboardEvent None "Enter" "Enter" 13 13 false false false false true true true.

(** What the handler with the guard flag does for a press it converts:
    it suppresses the press, raises the flag, and starts the timer of 10 ms
    that dispatches a Shift+Enter on the target of the press and then
    starts the timer of 50 ms that lowers the flag. *)
Definition conversionOf (event : KeyboardEvent) : list Effect :=
  [ PreventDefault; StopImmediatePropagation;
    SetProcessingFakeEvent true;
    SetTimeout [ DispatchEvent (target event) shiftEnterKeydown;
                 SetTimeout [ SetProcessingFakeEvent false ] 50 ] 10 ].

(** The run of a converted press on the page [p], step by step: the press
    leaves the flag set and the dispatch timer pending; that timer fires
    10 ms later, the handler is called for the Shift+Enter on the target of
    the press while the flag is set and makes no call, and the reset timer
    is left; that timer fires 50 ms later, the flag is clear and no timer
    is left.  This is where [press] ends. *)
Definition convertedPressRun (p : Page) (event : KeyboardEvent) (rounds fuel : nat) : Prop :=
  exists p1 p2 p3,
    keydown KeySwap.listener fuel event p = Some p1
    /\ isProcessingFakeEvent p1 = true
    /\ timers p1 = [ mkTimer (clock p + 10)
                       [ DispatchEvent (target event) shiftEnterKeydown;
                         SetTimeout [ SetProcessingFakeEvent false ] 50 ] ]
    /\ history p1 = history p ++ [ (event, conversionOf event) ]
    /\ fire KeySwap.listener fuel p1 = Some p2
    /\ isProcessingFakeEvent p2 = true
    /\ clock p2 = clock p + 10
    /\ timers p2 = [ mkTimer (clock p + 60) [ SetProcessingFakeEvent false ] ]
    /\ history p2 = history p ++ [ (event, conversionOf event);
                                   (withTarget (target event) shiftEnterKeydown, []) ]
    /\ fire KeySwap.listener fuel p2 = Some p3
    /\ isProcessingFakeEvent p3 = false
    /\ timers p3 = []
    /\ history p3 = history p2
    /\ press KeySwap.listener rounds fuel event p = Some p3.

(** A document in which no selector finds a send button. *)
Definition noSendButton : Document := mkDocument None None None.

(** A page of the remapper without a guard flag, under [swapped] and with
    no send button, that waits for one timer to dispatch a fake event. *)
Definition pingPong (p : Page) : Prop :=
  currentSettings p = swapped
  /\ document p = noSendButton
  /\ exists t action,
       (action = "Enter" \/ action = "Shift+Enter")
       /\ timers p = [ mkTimer t [ DispatchEvent (Some 0) (KeySwapAlt.createFakeEvent action) ] ].

(** A page with the given settings and document, nothing attached and
    nothing pending. *)
Definition freshPage (s : Settings) (d : Document) : Page :=
  mkPage s false [] 0 d 0 [] [].

(** An element the scripts have not bound: no expando property and no
    listener of theirs.  Its class and its data attributes are whatever
    the host page gave it. *)
Definition unbound (el : Element) : Prop :=
  keySwapHandler el = None /\ keydownCapture el = [].

(** One thing that happens in a tab running the remapper with the guard
    flag: the settings are read, the mutation observer runs, a message
    arrives, a key is pressed, a timer fires, or the host page changes the
    document, keeping elements and adding elements of its own. *)
Inductive tabStep : Page -> Page -> Prop :=
| tabLoad (store : ChromeStorage.Sync) (p : Page) :
    tabStep p (KeySwap.loadSettings store p)
| tabObserve (p : Page) :
    tabStep p (KeySwap.tryAttachHandler p)
| tabMessage (m : Message) (p : Page) :
    tabStep p (KeySwap.onMessage m p)
| tabKeydown (fuel : nat) (e : KeyboardEvent) (p p' : Page) :
    keydown KeySwap.listener fuel e p = Some p' -> tabStep p p'
| tabFire (fuel : nat) (p p' : Page) :
    fire KeySwap.listener fuel p = Some p' -> tabStep p p'
| tabMutation (els : list Element) (p : Page) :
    (forall el, In el els -> In el (elements p) \/ unbound el) ->
    tabStep p (withElements els (closures p) p).

(** The pages a tab can be in: it starts with nothing bound, no closure
    created, the guard flag clear and no timer pending. *)
Inductive tabReachable : Page -> Prop :=
| tabStart (s : Settings) (d : Document) (els : list Element) :
    Forall unbound els ->
    tabReachable (mkPage s false els 0 d 0 [] [])
| tabNext (p p' : Page) :
    tabReachable p -> tabStep p p' -> tabReachable p'.

(** The same for a tab running the older remapper. *)
Inductive tabStepAlt : Page -> Page -> Prop :=
| tabLoadAlt (store : ChromeStorage.Sync) (p : Page) :
    tabStepAlt p (KeySwapAlt.loadSettings store p)
| tabObserveAlt (p : Page) :
    tabStepAlt p (KeySwapAlt.tryAttachHandler p)
| tabMessageAlt (m : Message) (p : Page) :
    tabStepAlt p (KeySwapAlt.onMessage m p)
| tabKeydownAlt (fuel : nat) (e : KeyboardEvent) (p p' : Page) :
    keydown KeySwapAlt.listener fuel e p = Some p' -> tabStepAlt p p'
| tabFireAlt (fuel : nat) (p p' : Page) :
    fire KeySwapAlt.listener fuel p = Some p' -> tabStepAlt p p'
| tabMutationAlt (els : list Element) (p : Page) :
    (forall el, In el els -> In el (elements p) \/ unbound el) ->
    tabStepAlt p (withElements els (closures p) p).

Inductive tabReachableAlt : Page -> Prop :=
| tabStartAlt (s : Settings) (d : Document) (els : list Element) :
    Forall unbound els ->
    tabReachableAlt (mkPage s false els 0 d 0 [] [])
| tabNextAlt (p p' : Page) :
    tabReachableAlt p -> tabStepAlt p p' -> tabReachableAlt p'.

(** What the marker of content.js stands for: an element has at most one
    listener, and has one only when it is marked as attached. *)
Definition enterFixBound (el : Element) : Prop :=
  length (keydownCapture el) <= 1
  /\ (keydownCapture el <> [] -> dataset el !! "enterFixAttached" = Some "true").

(** No selector finds a send button that can be clicked. *)
Definition noClickableButton (d : Document) : Prop :=
  forall b, KeySwapAlt.sendButton d = Some b -> disabled b = true.

(** A page of the remapper without a guard flag, under [swapped] and with
    no clickable send button, that waits for one timer to dispatch a fake
    Enter or Shift+Enter on the element [on]. *)
Definition pingPongOn (on : option nat) (p : Page) : Prop :=
  currentSettings p = swapped
  /\ noClickableButton (document p)
  /\ exists t action,
       (action = "Enter" \/ action = "Shift+Enter")
       /\ timers p = [ mkTimer t [ DispatchEvent on (KeySwapAlt.createFakeEvent action) ] ].

(** What the observer callback of the remapper with the guard flag does
    to one element.  A ProseMirror element whose marker is missing, empty
    or "false" is marked "true" and, when its listeners were those its
    expando property names, ends with exactly one listener; any other
    element, a ProseMirror element already marked included, is left as it
    is. *)
Definition observed (el el' : Element) : Prop :=
  if classProseMirror el
     && (negb (truthy (dataset el !! "keySwapAttached"))
         || (dataset el !! "keySwapAttached" ==? "false"))
  then classProseMirror el' = true
       /\ dataset el' !! "keySwapAttached" = Some "true"
       /\ (keydownCapture el
             = match keySwapHandler el with Some h => [h] | None => [] end ->
           exists h, keydownCapture el' = [h] /\ keySwapHandler el' = Some h)
  else el' = el.

(** * Properties *)

(** ** Classification of an event against a chord *)

Lemma key_is_Enter (event : KeyboardEvent) :
  (key event === "Enter") = true <-> key event = "Enter".
Proof. apply String.eqb_eq. Qed.

(** Case analysis on the key and the four modifier keys of an event. *)
Ltac event_cases event :=
  let K := fresh "K" in
  destruct event as [tg k c kc w sh al ct me bu ca co]; simpl in *;
  destruct (k === "Enter") eqn:K;
  [ apply String.eqb_eq in K; subst k | apply String.eqb_neq in K ];
  destruct sh, al, ct, me; simpl in *.

Ltac chord_cases H :=
  unfold chords in H; simpl in H;
  repeat (destruct H as [H | H]; [ subst | ]); [ .. | contradiction ].

Lemma isKeyMatch_iff (event : KeyboardEvent) (chord : string) :
  In chord chords ->
  (KeySwap.isKeyMatch event chord = true <->
   key event = "Enter" /\ modifiers event = impliedModifiers chord).
Proof.
  intros Hc. chord_cases Hc;
    unfold KeySwap.isKeyMatch, modifiers, impliedModifiers;
    event_cases event; split; try tauto; try congruence;
    intros [? ?]; congruence.
Qed.

Lemma isKeyMatch_meta (event : KeyboardEvent) (action : string) :
  metaKey event = true -> KeySwap.isKeyMatch event action = false.
Proof.
  intros Hm. unfold KeySwap.isKeyMatch.
  destruct (key event === "Enter"); simpl; [ | reflexivity ].
  rewrite Hm.
  repeat match goal with
         | |- context [if ?b then _ else _] => destruct b
         end; simpl; rewrite ?andb_false_r; reflexivity.
Qed.

Lemma isKeyMatch_other_modifiers (event : KeyboardEvent) (action : string) :
  modifiers event <> impliedModifiers action ->
  KeySwap.isKeyMatch event action = false.
Proof.
  intros Hne. destruct (KeySwap.isKeyMatch event action) eqn:M; [ | reflexivity ].
  exfalso. apply Hne.
  unfold KeySwap.isKeyMatch in M. unfold modifiers, impliedModifiers.
  destruct (key event === "Enter"); simpl in M; [ | discriminate ].
  destruct (action === "Enter") eqn:A1.
  { apply String.eqb_eq in A1; subst action; simpl.
    destruct (shiftKey event), (altKey event), (ctrlKey event), (metaKey event);
      simpl in M; congruence. }
  destruct (action === "Shift+Enter") eqn:A2.
  { apply String.eqb_eq in A2; subst action; simpl.
    destruct (shiftKey event), (altKey event), (ctrlKey event), (metaKey event);
      simpl in M; congruence. }
  destruct (action === "Alt+Enter") eqn:A3.
  { apply String.eqb_eq in A3; subst action; simpl.
    destruct (shiftKey event), (altKey event), (ctrlKey event), (metaKey event);
      simpl in M; congruence. }
  destruct (action === "Ctrl+Enter") eqn:A4.
  { apply String.eqb_eq in A4; subst action; simpl.
    destruct (shiftKey event), (altKey event), (ctrlKey event), (metaKey event);
      simpl in M; congruence. }
  discriminate.
Qed.

Lemma keyHandler_no_match (s : Settings) (g : bool) (d : Document) (event : KeyboardEvent) :
  KeySwap.isKeyMatch event (newlineAction s) = false ->
  KeySwap.isKeyMatch event (sendAction s) = false ->
  KeySwap.keyHandler s g d event = [].
Proof.
  intros Hn Hs. unfold KeySwap.keyHandler. rewrite Hn, Hs.
  destruct (negb (key event === "Enter")); [ reflexivity | ].
  destruct g; reflexivity.
Qed.

(** The listener of content.js in terms of what it tests: it acts on an
    Enter keydown with Shift and Alt up, and on nothing else. *)
Lemma keydownListener_by_shift_alt (event : KeyboardEvent) :
  (EnterFix.keydownListener event <> []
   <-> key event = "Enter" /\ shiftKey event = false /\ altKey event = false)
  /\ (key event = "Enter" -> shiftKey event = false -> altKey event = false ->
      EnterFix.keydownListener event
      = [ PreventDefault; StopImmediatePropagation;
          DispatchEvent (target event) EnterFix.fakeShiftEnterEvent ]).
Proof.
  unfold EnterFix.keydownListener.
  destruct (String.eqb_spec (key event) "Enter") as [K | K];
    destruct (shiftKey event), (altKey event); simpl;
    (split; [ split | ]);
    try (intros H; exfalso; apply H; reflexivity);
    try (intros (? & ? & ?); congruence);
    try (intros _; split; [ assumption | split; reflexivity ]);
    try discriminate;
    try (intros; congruence);
    try (intros; reflexivity).
Qed.

(** C1, as the code has it.  In the configurable remapper, [isKeyMatch]
    accepts an event for one of the four chords exactly when the key is
    Enter and the modifier keys (shift, alt, ctrl, meta) are those of the
    chord name; an event whose modifier keys are those of neither
    configured action, and any event with Meta held, matches nothing and
    the handler makes no call: the event is passed through unmodified.
    The listener of content.js has no chord to compare with: it tests
    Shift and Alt only, acts exactly on an Enter keydown with both up,
    whatever Ctrl and Meta are, and then suppresses the event and
    dispatches a Shift+Enter on its target. *)
Theorem isKeyMatch_exact_modifiers
    (event : KeyboardEvent) (chord : string) (s : Settings) (g : bool) (d : Document) :
  In chord chords ->
  (KeySwap.isKeyMatch event chord = true <->
   key event = "Enter" /\ modifiers event = impliedModifiers chord)
  /\ (modifiers event <> impliedModifiers (newlineAction s) ->
      modifiers event <> impliedModifiers (sendAction s) ->
      KeySwap.isKeyMatch event (newlineAction s) = false
      /\ KeySwap.isKeyMatch event (sendAction s) = false
      /\ KeySwap.keyHandler s g d event = [])
  /\ (metaKey event = true ->
      (forall action, KeySwap.isKeyMatch event action = false)
      /\ KeySwap.keyHandler s g d event = [])
  /\ (EnterFix.keydownListener event <> []
      <-> key event = "Enter" /\ shiftKey event = false /\ altKey event = false)
  /\ (key event = "Enter" -> shiftKey event = false -> altKey event = false ->
      EnterFix.keydownListener event
      = [ PreventDefault; StopImmediatePropagation;
          DispatchEvent (target event) EnterFix.fakeShiftEnterEvent ]).
Proof.
  intros Hc. split; [ apply isKeyMatch_iff; exact Hc | split; [ | split ] ].
  - intros Hn Hs.
    pose proof (isKeyMatch_other_modifiers _ _ Hn) as Mn.
    pose proof (isKeyMatch_other_modifiers _ _ Hs) as Ms.
    split; [ exact Mn | split; [ exact Ms | ] ].
    apply keyHandler_no_match; assumption.
  - intros Hm. split.
    + intros action. apply isKeyMatch_meta; exact Hm.
    + apply keyHandler_no_match; apply isKeyMatch_meta; exact Hm.
  - apply keydownListener_by_shift_alt.
Qed.

Lemma isKeyMatch_exact_modifiers_witness :
  In "Ctrl+Enter" chords
  /\ (KeySwap.isKeyMatch (enterPress false false true false) "Ctrl+Enter" = true <->
      key (enterPress false false true false) = "Enter"
      /\ modifiers (enterPress false false true false) = impliedModifiers "Ctrl+Enter").
Proof.
  split.
  - simpl; tauto.
  - apply (isKeyMatch_exact_modifiers (enterPress false false true false) "Ctrl+Enter"
             KeySwap.DEFAULT_SETTINGS false noSendButton).
    simpl; tauto.
Defined.

(** C1, counterexample.  An Enter press with Meta held, and nothing else,
    matches none of the four chords, and yet the listener of content.js
    does not pass it through: it suppresses the press and dispatches a
    Shift+Enter. *)
Lemma meta_enter_is_converted_by_content_js :
  metaKey (enterPress false false false true) = true
  /\ KeySwap.isKeyMatch (enterPress false false false true) "Enter" = false
  /\ KeySwap.isKeyMatch (enterPress false false false true) "Shift+Enter" = false
  /\ KeySwap.isKeyMatch (enterPress false false false true) "Alt+Enter" = false
  /\ KeySwap.isKeyMatch (enterPress false false false true) "Ctrl+Enter" = false
  /\ EnterFix.keydownListener (enterPress false false false true)
     = [ PreventDefault; StopImmediatePropagation;
         DispatchEvent (Some 0) EnterFix.fakeShiftEnterEvent ].
Proof. repeat (split; [ reflexivity | ]). reflexivity. Qed.

(** ** The native mapping *)

(** C2.  With sendAction = Enter and newlineAction = Shift+Enter the
    keydown handler of either configurable remapper makes no call at all,
    whatever the event, the guard flag and the document: no
    preventDefault, no stopImmediatePropagation, no click, no timer and no
    dispatched event. *)
Theorem native_mapping_is_transparent
    (g : bool) (d : Document) (event : KeyboardEvent) :
  KeySwap.keyHandler {| sendAction := "Enter"; newlineAction := "Shift+Enter" |} g d event = []
  /\ KeySwapAlt.keyHandler {| sendAction := "Enter"; newlineAction := "Shift+Enter" |} d event = [].
Proof.
  unfold KeySwap.keyHandler, KeySwap.isKeyMatch,
         KeySwapAlt.keyHandler, KeySwapAlt.isKeyMatch, KeySwapAlt.convert.
  event_cases event; destruct g; split; reflexivity.
Qed.

(** ** Newline before send *)

Lemma convertNewline_never_clicks (event : KeyboardEvent) :
  existsb clicks (KeySwap.convertNewline event true (Some "Shift+Enter")) = false.
Proof. reflexivity. Qed.

Lemma convert_newline_never_clicks (d : Document) (event : KeyboardEvent) :
  existsb clicks (KeySwapAlt.convert d event true (Some "Shift+Enter")) = false.
Proof. reflexivity. Qed.



(** ** The send action *)

(** The remapper without a guard flag knows three chords; on them its
    classification is that of the other remapper. *)
Lemma isKeyMatch_alt_implies (event : KeyboardEvent) (action : string) :
  KeySwapAlt.isKeyMatch event action = true ->
  KeySwap.isKeyMatch event action = true.
Proof.
  unfold KeySwapAlt.isKeyMatch, KeySwap.isKeyMatch.
  destruct (negb (key event === "Enter")); [ discriminate | ].
  destruct (action === "Enter"); [ tauto | ].
  destruct (action === "Shift+Enter"); [ tauto | ].
  destruct (action === "Alt+Enter"); [ tauto | discriminate ].
Qed.

Lemma isKeyMatch_alt_Ctrl (event : KeyboardEvent) :
  KeySwapAlt.isKeyMatch event "Ctrl+Enter" = false.
Proof.
  unfold KeySwapAlt.isKeyMatch. destruct (negb (key event === "Enter")); reflexivity.
Qed.

Lemma isKeyMatch_alt_known (event : KeyboardEvent) (action : string) :
  KeySwap.isKeyMatch event action = true ->
  action <> "Ctrl+Enter" ->
  KeySwapAlt.isKeyMatch event action = true.
Proof.
  unfold KeySwapAlt.isKeyMatch, KeySwap.isKeyMatch.
  destruct (negb (key event === "Enter")); [ discriminate | ].
  destruct (action === "Enter"); [ tauto | ].
  destruct (action === "Shift+Enter"); [ tauto | ].
  destruct (action === "Alt+Enter"); [ tauto | ].
  destruct (String.eqb_spec action "Ctrl+Enter") as [E | _]; [ | discriminate ].
  intros _ Hne. contradiction.
Qed.

(** C3, as the code has it.  Take an event that matches a sendAction
    other than Enter and does not match newlineAction.  The remapper with
    the guard flag makes no call while the flag is set; with the flag
    clear it suppresses the event and clicks the send button found by the
    three selectors when that button is enabled, and does nothing more
    when no button is found or it is disabled.  The older remapper lets
    the event through when sendAction is Ctrl+Enter, a chord its
    [isKeyMatch] does not know; otherwise it suppresses the event, clicks
    the enabled send button, and when no button is found or it is disabled
    starts a 10 ms timer that dispatches a plain-Enter keydown on the
    target of the event. *)
Theorem send_action_outcome
    (s : Settings) (g : bool) (d : Document) (event : KeyboardEvent) :
  sendAction s <> "Enter" ->
  KeySwap.isKeyMatch event (sendAction s) = true ->
  KeySwap.isKeyMatch event (newlineAction s) = false ->
  KeySwap.keyHandler s g d event
    = (if g then []
       else PreventDefault :: StopImmediatePropagation ::
            match KeySwap.sendButton d with
            | Some b => if disabled b then [] else [Click b]
            | None => []
            end)
  /\ KeySwapAlt.keyHandler s d event
     = (if sendAction s === "Ctrl+Enter" then []
        else PreventDefault :: StopImmediatePropagation ::
             match KeySwapAlt.sendButton d with
             | Some b =>
                 if disabled b
                 then [ SetTimeout [ DispatchEvent (target event) plainEnterKeydown ] 10 ]
                 else [Click b]
             | None => [ SetTimeout [ DispatchEvent (target event) plainEnterKeydown ] 10 ]
             end).
Proof.
  intros Hne Ms Mn.
  assert (K : (key event === "Enter") = true).
  { unfold KeySwap.isKeyMatch in Ms.
    destruct (key event === "Enter"); [ reflexivity | discriminate ]. }
  pose proof Hne as Hne'. apply String.eqb_neq in Hne'.
  assert (Mn' : KeySwapAlt.isKeyMatch event (newlineAction s) = false).
  { destruct (KeySwapAlt.isKeyMatch event (newlineAction s)) eqn:E; [ | reflexivity ].
    apply isKeyMatch_alt_implies in E. congruence. }
  split.
  - unfold KeySwap.keyHandler. rewrite K, Mn, Ms, Hne'; simpl.
    destruct g; [ reflexivity | ].
    destruct (KeySwap.sendButton d) as [b|]; [ | reflexivity ].
    destruct (disabled b); reflexivity.
  - destruct (String.eqb_spec (sendAction s) "Ctrl+Enter") as [E | E].
    + unfold KeySwapAlt.keyHandler. rewrite K, Mn', E, isKeyMatch_alt_Ctrl. reflexivity.
    + pose proof (isKeyMatch_alt_known _ _ Ms E) as Ms'.
      unfold KeySwapAlt.keyHandler. rewrite K, Mn', Ms', Hne'; simpl.
      unfold KeySwapAlt.convert; simpl.
      destruct (KeySwapAlt.sendButton d) as [b|]; [ | reflexivity ].
      destruct (disabled b); reflexivity.
Qed.

Lemma send_action_outcome_witness :
  KeySwap.keyHandler {| sendAction := "Alt+Enter"; newlineAction := "Enter" |} false
    (mkDocument None (Some (mkButton 7 false)) None) (enterPress false true false false)
  = [ PreventDefault; StopImmediatePropagation; Click (mkButton 7 false) ]
  /\ KeySwapAlt.keyHandler {| sendAction := "Alt+Enter"; newlineAction := "Enter" |}
       (mkDocument None (Some (mkButton 7 true)) None) (enterPress false true false false)
     = [ PreventDefault; StopImmediatePropagation;
         SetTimeout [ DispatchEvent (Some 0) plainEnterKeydown ] 10 ].
Proof.
  split.
  - refine (proj1 (send_action_outcome
                     {| sendAction := "Alt+Enter"; newlineAction := "Enter" |} false
                     (mkDocument None (Some (mkButton 7 false)) None)
                     (enterPress false true false false) _ _ _)).
    + simpl; discriminate.
    + reflexivity.
    + reflexivity.
  - refine (proj2 (send_action_outcome
                     {| sendAction := "Alt+Enter"; newlineAction := "Enter" |} false
                     (mkDocument None (Some (mkButton 7 true)) None)
                     (enterPress false true false false) _ _ _)).
    + simpl; discriminate.
    + reflexivity.
    + reflexivity.
Defined.

(** C3, counterexample.  With sendAction = Alt+Enter, newlineAction =
    Enter and no send button in the document, the remapper with the guard
    flag suppresses Alt+Enter and then does nothing: no click and no
    dispatched event, now or from a timer. *)
Lemma send_without_button_is_dropped :
  KeySwap.isKeyMatch (enterPress false true false false) "Alt+Enter" = true
  /\ KeySwap.sendButton noSendButton = None
  /\ KeySwap.keyHandler {| sendAction := "Alt+Enter"; newlineAction := "Enter" |} false
       noSendButton (enterPress false true false false)
     = [ PreventDefault; StopImmediatePropagation ]
  /\ existsb dispatches
       (KeySwap.keyHandler {| sendAction := "Alt+Enter"; newlineAction := "Enter" |} false
          noSendButton (enterPress false true false false)) = false.
Proof. repeat split. Qed.

(** ** The guard flag *)

Lemma keyHandler_guarded (s : Settings) (d : Document) (event : KeyboardEvent) :
  KeySwap.keyHandler s true d event = [].
Proof.
  unfold KeySwap.keyHandler. destruct (negb (key event === "Enter")); reflexivity.
Qed.

(** The four things the handler with the guard flag can do. *)
Lemma keyHandler_shapes (s : Settings) (d : Document) (event : KeyboardEvent) :
  KeySwap.keyHandler s false d event = []
  \/ KeySwap.keyHandler s false d event = [ PreventDefault; StopImmediatePropagation ]
  \/ (exists b, KeySwap.keyHandler s false d event
                = [ PreventDefault; StopImmediatePropagation; Click b ])
  \/ KeySwap.keyHandler s false d event
     = KeySwap.convertNewline event true (Some "Shift+Enter").
Proof.
  unfold KeySwap.keyHandler.
  destruct (negb (key event === "Enter")); [ left; reflexivity | ].
  destruct (KeySwap.isKeyMatch event (newlineAction s)).
  - destruct (newlineAction s === "Shift+Enter"); [ left; reflexivity | ].
    right; right; right; reflexivity.
  - destruct (KeySwap.isKeyMatch event (sendAction s)); [ | left; reflexivity ].
    destruct (sendAction s === "Enter"); [ left; reflexivity | ].
    destruct (KeySwap.sendButton d) as [b|]; [ | right; left; reflexivity ].
    destruct (negb (disabled b)); [ | right; left; reflexivity ].
    right; right; left. exists b. reflexivity.
Qed.

Lemma settle_at_rest (handler : Page -> KeyboardEvent -> list Effect)
    (rounds fuel : nat) (p : Page) :
  timers p = [] -> settle handler rounds fuel p = Some p.
Proof. intros Ht. destruct rounds; simpl; rewrite Ht; reflexivity. Qed.

(** One step of [perform] at a dispatched event. *)
Lemma perform_dispatch (handler : Page -> KeyboardEvent -> list Effect)
    (fuel : nat) (on : option nat) (e : KeyboardEvent) (rest : list Effect) (p : Page) :
  perform handler (S fuel) (DispatchEvent on e :: rest) p
  = match perform handler fuel (handler p (withTarget on e))
            (recordCall (withTarget on e) (handler p (withTarget on e)) p) with
    | Some p' => perform handler fuel rest p'
    | None => None
    end.
Proof. reflexivity. Qed.

(** One round of [settle]. *)
Lemma settle_round (handler : Page -> KeyboardEvent -> list Effect)
    (rounds fuel : nat) (p p' : Page) :
  timers p <> [] ->
  fire handler fuel p = Some p' ->
  settle handler (S rounds) fuel p = settle handler rounds fuel p'.
Proof.
  intros Ht Hf. simpl. rewrite Hf.
  destruct (timers p); [ contradiction | reflexivity ].
Qed.

(** The handler with the guard flag either converts the press or
    dispatches nothing. *)
Lemma keyHandler_converts_or_not (s : Settings) (d : Document) (event : KeyboardEvent) :
  KeySwap.keyHandler s false d event = conversionOf event
  \/ KeySwap.keyHandler s false d event = []
  \/ KeySwap.keyHandler s false d event = [ PreventDefault; StopImmediatePropagation ]
  \/ exists b, KeySwap.keyHandler s false d event
                = [ PreventDefault; StopImmediatePropagation; Click b ].
Proof.
  destruct (keyHandler_shapes s d event) as [E|[E|[E|E]]]; tauto.
Qed.

(** With the flag clear, the handler converts exactly the presses that
    match a newlineAction other than Shift+Enter. *)
Lemma keyHandler_converts_iff (s : Settings) (d : Document) (event : KeyboardEvent) :
  KeySwap.keyHandler s false d event = conversionOf event
  <-> KeySwap.isKeyMatch event (newlineAction s) = true
      /\ newlineAction s <> "Shift+Enter".
Proof.
  unfold KeySwap.keyHandler.
  destruct (key event === "Enter") eqn:K; simpl.
  - destruct (KeySwap.isKeyMatch event (newlineAction s)).
    + destruct (String.eqb_spec (newlineAction s) "Shift+Enter") as [E | E].
      * split; [ discriminate | intros [_ H]; contradiction ].
      * split; [ intros _; split; [ reflexivity | exact E ] | intros _; reflexivity ].
    + destruct (KeySwap.isKeyMatch event (sendAction s)).
      * destruct (sendAction s === "Enter");
          [ split; [ discriminate | intros [H _]; discriminate ] | ].
        destruct (KeySwap.sendButton d) as [b|];
          [ destruct (negb (disabled b)) | ];
          (split; [ discriminate | intros [H _]; discriminate ]).
      * split; [ discriminate | intros [H _]; discriminate ].
  - assert (M : KeySwap.isKeyMatch event (newlineAction s) = false).
    { unfold KeySwap.isKeyMatch. rewrite K. reflexivity. }
    rewrite M. split; [ discriminate | intros [H _]; discriminate ].
Qed.

Lemma converted_press_runs (p : Page) (event : KeyboardEvent) (rounds fuel : nat) :
  isProcessingFakeEvent p = false ->
  timers p = [] ->
  2 <= rounds ->
  5 <= fuel ->
  KeySwap.listener p event = conversionOf event ->
  convertedPressRun p event rounds fuel.
Proof.
  intros Hg Ht Hr Hf Hconv.
  destruct p as [s g els n d c ts h]; simpl in Hg, Ht; subst g ts.
  destruct rounds as [|[|rounds]]; try lia.
  destruct fuel as [|[|[|[|[|fuel]]]]]; try lia.
  set (p1 := mkPage s true els n d c
               [ mkTimer (c + 10)
                   [ DispatchEvent (target event) shiftEnterKeydown;
                     SetTimeout [ SetProcessingFakeEvent false ] 50 ] ]
               (h ++ [ (event, conversionOf event) ])).
  set (p2 := mkPage s true els n d (Nat.max c (c + 10))
               [ mkTimer (Nat.max c (c + 10) + 50) [ SetProcessingFakeEvent false ] ]
               ((h ++ [ (event, conversionOf event) ])
                  ++ [ (withTarget (target event) shiftEnterKeydown, []) ])).
  set (p3 := mkPage s false els n d
               (Nat.max (Nat.max c (c + 10)) (Nat.max c (c + 10) + 50)) []
               ((h ++ [ (event, conversionOf event) ])
                  ++ [ (withTarget (target event) shiftEnterKeydown, []) ])).
  assert (M : Nat.max c (c + 10) = c + 10) by (apply Nat.max_r; lia).
  assert (E1 : keydown KeySwap.listener (S (S (S (S (S fuel))))) event
                 (mkPage s false els n d c [] h) = Some p1).
  { unfold keydown. rewrite Hconv. reflexivity. }
  assert (E2 : fire KeySwap.listener (S (S (S (S (S fuel))))) p1 = Some p2).
  { unfold fire, p1. cbn [timers callback due].
    rewrite perform_dispatch. unfold KeySwap.listener.
    cbn [currentSettings isProcessingFakeEvent document withClock withTimers].
    rewrite keyHandler_guarded. reflexivity. }
  assert (E3 : fire KeySwap.listener (S (S (S (S (S fuel))))) p2 = Some p3).
  { reflexivity. }
  exists p1, p2, p3.
  split; [ exact E1 | ].
  split; [ reflexivity | ].
  split; [ reflexivity | ].
  split; [ reflexivity | ].
  split; [ exact E2 | ].
  split; [ reflexivity | ].
  split; [ exact M | ].
  split; [ unfold p2; cbn [timers clock]; rewrite M; f_equal; f_equal; lia | ].
  split; [ unfold p2; cbn [history]; rewrite <- app_assoc; reflexivity | ].
  split; [ exact E3 | ].
  split; [ reflexivity | ].
  split; [ reflexivity | ].
  split; [ reflexivity | ].
  unfold press. rewrite E1.
  rewrite (settle_round _ _ _ p1 p2) by (exact E2 || discriminate).
  rewrite (settle_round _ _ _ p2 p3) by (exact E3 || discriminate).
  apply settle_at_rest. reflexivity.
Qed.

Lemma unconverted_press_runs (p : Page) (event : KeyboardEvent) (rounds fuel : nat) :
  isProcessingFakeEvent p = false ->
  timers p = [] ->
  5 <= fuel ->
  KeySwap.listener p event <> conversionOf event ->
  existsb dispatches (KeySwap.listener p event) = false
  /\ press KeySwap.listener rounds fuel event p
     = Some (recordCall event (KeySwap.listener p event) p).
Proof.
  intros Hg Ht Hf Hnot.
  destruct p as [s g els n d c ts h]; simpl in Hg, Ht; subst g ts.
  destruct fuel as [|[|[|[|[|fuel]]]]]; try lia.
  unfold press, keydown, KeySwap.listener in *.
  cbn [currentSettings isProcessingFakeEvent document] in *.
  destruct (keyHandler_converts_or_not s d event) as [E|[E|[E|[b E]]]];
    [ contradiction | | | ]; rewrite E;
    (split; [ reflexivity | ]);
    cbn [perform recordCall]; apply settle_at_rest; reflexivity.
Qed.

(** C4, for the remapper with the guard flag.  While
    [isProcessingFakeEvent] is set the handler makes no call.  Take a key
    press that finds the flag clear and no timer pending, and let nothing
    happen after it but its own timers.  If the handler converts the
    press, the flag is set at once, the one Shift+Enter is dispatched on
    the target of the press 10 ms later while the flag is still set, the
    handler makes no call for it, and 50 ms later the flag is clear and no
    timer is left.  If the handler does not convert the press, nothing is
    dispatched, now or from a timer.  The handler converts a press exactly
    when it matches a newlineAction other than Shift+Enter.  The older
    remapper has no such guard: its listener never reads the flag. *)
Theorem fake_event_is_not_remapped
    (p : Page) (event : KeyboardEvent) (rounds fuel : nat) :
  isProcessingFakeEvent p = false ->
  timers p = [] ->
  2 <= rounds ->
  5 <= fuel ->
  (forall q e, isProcessingFakeEvent q = true -> KeySwap.listener q e = [])
  /\ (KeySwap.listener p event = conversionOf event ->
      convertedPressRun p event rounds fuel)
  /\ (KeySwap.listener p event <> conversionOf event ->
      existsb dispatches (KeySwap.listener p event) = false
      /\ press KeySwap.listener rounds fuel event p
         = Some (recordCall event (KeySwap.listener p event) p))
  /\ (forall v q e,
        KeySwapAlt.listener (withProcessingFakeEvent v q) e = KeySwapAlt.listener q e)
  /\ (KeySwap.listener p event = conversionOf event
      <-> KeySwap.isKeyMatch event (newlineAction (currentSettings p)) = true
          /\ newlineAction (currentSettings p) <> "Shift+Enter").
Proof.
  intros Hg Ht Hr Hf.
  split; [ | split; [ | split; [ | split ] ] ].
  - intros q e Hq. unfold KeySwap.listener. rewrite Hq. apply keyHandler_guarded.
  - intros Hconv. apply converted_press_runs; assumption.
  - intros Hnot. apply unconverted_press_runs; assumption.
  - intros v q e. reflexivity.
  - unfold KeySwap.listener. rewrite Hg. apply keyHandler_converts_iff.
Qed.

Lemma fake_event_is_not_remapped_witness :
  KeySwap.listener (freshPage swapped noSendButton) (enterPress false false false false)
  = conversionOf (enterPress false false false false)
  /\ convertedPressRun (freshPage swapped noSendButton)
       (enterPress false false false false) 2 5.
Proof.
  split; [ reflexivity | ].
  refine (proj1 (proj2 (fake_event_is_not_remapped (freshPage swapped noSendButton)
                          (enterPress false false false false) 2 5 _ _ _ _)) _).
  - reflexivity.
  - reflexivity.
  - lia.
  - lia.
  - reflexivity.
Defined.

(** C4, counterexample.  The remapper without a guard flag, with
    sendAction = Shift+Enter and newlineAction = Enter: a press of plain
    Enter is converted to a fake Shift+Enter, and the handler, run on that
    fake event, suppresses it and clicks the send button. *)
Lemma fake_event_remapped_without_flag :
  KeySwapAlt.keyHandler swapped withSendButton (enterPress false false false false)
  = [ PreventDefault; StopImmediatePropagation;
      SetTimeout [ DispatchEvent (Some 0) (KeySwapAlt.createFakeEvent "Shift+Enter") ] 10 ]
  /\ KeySwapAlt.keyHandler swapped withSendButton
       (withTarget (Some 0) (KeySwapAlt.createFakeEvent "Shift+Enter"))
     = [ PreventDefault; StopImmediatePropagation; Click (mkButton 1 false) ]
  /\ option_map history
       (press KeySwapAlt.listener 1 5 (enterPress false false false false)
          (freshPage swapped withSendButton))
     = Some [ (enterPress false false false false,
               [ PreventDefault; StopImmediatePropagation;
                 SetTimeout [ DispatchEvent (Some 0)
                                (KeySwapAlt.createFakeEvent "Shift+Enter") ] 10 ]);
              (withTarget (Some 0) (KeySwapAlt.createFakeEvent "Shift+Enter"),
               [ PreventDefault; StopImmediatePropagation; Click (mkButton 1 false) ]) ].
Proof. split; [ | split ]; reflexivity. Qed.

(** Without a send button the same settings make the remapper without a
    guard flag answer each fake event with another one: a fired timer
    leaves a new timer behind. *)
Lemma pingPong_fire (fuel : nat) (p : Page) :
  pingPong p ->
  fire KeySwapAlt.listener fuel p = None
  \/ exists p', fire KeySwapAlt.listener fuel p = Some p' /\ pingPong p'.
Proof.
  intros (Hs & Hd & t & action & Ha & Ht).
  destruct p as [s g els n d c ts h]; simpl in Hs, Hd, Ht; subst s d ts.
  unfold fire; simpl timers; cbv iota.
  destruct fuel as [|[|[|[|[|fuel]]]]]; try (left; reflexivity);
    destruct Ha; subst action; try (left; reflexivity).
  - right. eexists. split; [ reflexivity | ].
    split; [ reflexivity | split; [ reflexivity | ] ].
    eexists _, "Shift+Enter". split; [ right; reflexivity | reflexivity ].
  - right. eexists. split; [ reflexivity | ].
    split; [ reflexivity | split; [ reflexivity | ] ].
    eexists _, "Enter". split; [ left; reflexivity | reflexivity ].
Qed.

Lemma pingPong_never_settles (rounds fuel : nat) (p : Page) :
  pingPong p -> settle KeySwapAlt.listener rounds fuel p = None.
Proof.
  revert p. induction rounds as [|rounds IH]; intros p Hp.
  - destruct Hp as (_ & _ & t & action & _ & Ht). simpl. rewrite Ht. reflexivity.
  - pose proof Hp as (_ & _ & t & action & _ & Ht).
    simpl. rewrite Ht.
    destruct (pingPong_fire fuel p Hp) as [E | (p' & E & Hp')]; rewrite E.
    + reflexivity.
    + apply IH; exact Hp'.
Qed.

(** One press of plain Enter starts the exchange, which no number of
    timer rounds brings to rest. *)
Lemma press_never_settles_without_flag (rounds fuel : nat) :
  press KeySwapAlt.listener rounds fuel (enterPress false false false false)
    (freshPage swapped noSendButton) = None.
Proof.
  unfold press.
  destruct fuel as [|[|[|[|fuel]]]]; try reflexivity.
  simpl keydown. cbv beta iota.
  apply pingPong_never_settles.
  split; [ reflexivity | split; [ reflexivity | ] ].
  eexists _, "Shift+Enter". split; [ right; reflexivity | reflexivity ].
Qed.

(** ** The settings UI *)

Lemma handleDuplicateKeys_collision (target : Popup.Select) (chosen : string) (ui : Popup.Selects) :
  Popup.value (otherControl target) ui = chosen ->
  Popup.handleDuplicateKeys (Popup.id target) chosen (Popup.setValue target chosen ui)
  = Popup.setValue (otherControl target)
      (if chosen === "Enter" then "Shift+Enter" else "Enter")
      (Popup.setValue target chosen ui).
Proof.
  intros Hc. destruct ui as [sv nv]; destruct target; simpl in Hc; subst;
    unfold Popup.handleDuplicateKeys; simpl; rewrite String.eqb_refl; simpl;
    destruct (chosen === "Enter") eqn:E; simpl; try reflexivity;
    apply String.eqb_eq in E; subst; reflexivity.
Qed.

Lemma handleDuplicateKeys_no_collision (target : Popup.Select) (chosen : string) (ui : Popup.Selects) :
  Popup.value (otherControl target) ui <> chosen ->
  Popup.handleDuplicateKeys (Popup.id target) chosen (Popup.setValue target chosen ui)
  = Popup.setValue target chosen ui.
Proof.
  intros Hc. apply String.eqb_neq in Hc.
  destruct ui as [sv nv]; destruct target; simpl in Hc;
    unfold Popup.handleDuplicateKeys; simpl; rewrite Hc; reflexivity.
Qed.

Lemma firstUnusedChord_collision (chosen : string) :
  firstUnusedChord (Popup.mkSelects chosen chosen)
  = Some (if chosen === "Enter" then "Shift+Enter" else "Enter").
Proof.
  unfold firstUnusedChord; simpl.
  destruct (chosen === "Enter") eqn:E; simpl; [ | reflexivity ].
  apply String.eqb_eq in E; subst; reflexivity.
Qed.

(** C5.  The user picks [chosen] in one control.  When the other control
    holds that chord it is given the first chord of the canonical list
    that neither control uses, and otherwise it is left alone; either way
    the changed control keeps the chosen chord, the two controls differ
    after the change, the settings handed to [saveSettings] are those of
    the controls, a store that accepts the write holds exactly them, and
    every message sent to a tab carries them. *)
Theorem change_keeps_actions_distinct
    (target : Popup.Select) (chosen : string) (tabs : list nat)
    (ui : Popup.Selects) (store : ChromeStorage.Sync) :
  let '(ui', newSettings, store', sent) := Popup.change target chosen tabs ui store in
  Popup.value target ui' = chosen
  /\ (if Popup.value (otherControl target) ui === chosen
      then Some (Popup.value (otherControl target) ui')
           = firstUnusedChord (Popup.setValue target chosen ui)
      else Popup.value (otherControl target) ui' = Popup.value (otherControl target) ui)
  /\ Popup.sendSelect ui' <> Popup.newlineSelect ui'
  /\ newSettings = {| sendAction := Popup.sendSelect ui';
                      newlineAction := Popup.newlineSelect ui' |}
  /\ sendAction newSettings <> newlineAction newSettings
  /\ (ChromeStorage.failing store = false ->
      ChromeStorage.items store' !! "sendAction" = Some (sendAction newSettings)
      /\ ChromeStorage.items store' !! "newlineAction" = Some (newlineAction newSettings))
  /\ (forall tab m, In (tab, m) sent -> settings m = newSettings).
Proof.
  unfold Popup.change, Popup.handleSettingChange.
  assert (V : Popup.value target (Popup.setValue target chosen ui) = chosen)
    by (destruct target; reflexivity).
  rewrite V.
  assert (D : forall ui' : Popup.Selects,
             ui' = Popup.handleDuplicateKeys (Popup.id target) chosen
                     (Popup.setValue target chosen ui) ->
             Popup.value target ui' = chosen
             /\ (if Popup.value (otherControl target) ui === chosen
                 then Some (Popup.value (otherControl target) ui')
                      = firstUnusedChord (Popup.setValue target chosen ui)
                 else Popup.value (otherControl target) ui'
                      = Popup.value (otherControl target) ui)
             /\ Popup.sendSelect ui' <> Popup.newlineSelect ui').
  { intros ui' ->.
    destruct (String.eqb_spec (Popup.value (otherControl target) ui) chosen) as [Hc | Hc].
    - rewrite (handleDuplicateKeys_collision _ _ _ Hc).
      destruct ui as [sv nv]; destruct target; simpl in Hc; subst; simpl;
        rewrite firstUnusedChord_collision;
        (split; [ reflexivity | split; [ reflexivity | ] ]);
        destruct (chosen === "Enter") eqn:E;
        try (apply String.eqb_eq in E; subst; discriminate);
        apply String.eqb_neq in E; congruence.
    - rewrite (handleDuplicateKeys_no_collision _ _ _ Hc).
      destruct ui as [sv nv]; destruct target; simpl in *;
        (split; [ reflexivity | split; [ reflexivity | congruence ] ]). }
  specialize (D _ eq_refl).
  set (ui' := Popup.handleDuplicateKeys (Popup.id target) chosen
                (Popup.setValue target chosen ui)) in *.
  destruct D as (D1 & D2 & D3).
  unfold Popup.saveSettings, ChromeStorage.set.
  destruct (ChromeStorage.failing store) eqn:F; simpl.
  - repeat (split; [ assumption || reflexivity | ]).
    split; [ discriminate | ]. intros tab m [].
  - repeat (split; [ assumption || reflexivity | ]).
    split.
    + intros _. split.
      * apply lookup_insert_eq.
      * rewrite lookup_insert_ne by discriminate. apply lookup_insert_eq.
    + intros tab m Hin. apply in_map_iff in Hin.
      destruct Hin as (x & Hx & _). inversion Hx; reflexivity.
Qed.

(** ** Rebinding on a settings message *)

Lemma reattach_element (n : nat) (el : Element) :
  keydownCapture el = match keySwapHandler el with Some h => [h] | None => [] end ->
  let el' := KeySwap.attachKeyHandler n (KeySwap.removeExistingHandler el) in
  classProseMirror el' = classProseMirror el
  /\ keydownCapture el' = [n]
  /\ keySwapHandler el' = Some n
  /\ dataset el' !! "keySwapAttached" = Some "true".
Proof.
  destruct el as [cls hd ls ds]; simpl. intros ->.
  destruct hd as [h|]; simpl; rewrite ?Nat.eqb_refl; simpl;
    (split; [ reflexivity | split; [ reflexivity | split; [ reflexivity | ] ] ]);
    apply lookup_insert_eq.
Qed.

Lemma reattach_element_alt (n : nat) (el : Element) :
  keydownCapture el = match keySwapHandler el with Some h => [h] | None => [] end ->
  let el' := KeySwapAlt.attachKeyHandler n (setDataset "keySwapAttached" "false" el) in
  classProseMirror el' = classProseMirror el
  /\ keydownCapture el' = [n]
  /\ keySwapHandler el' = Some n
  /\ dataset el' !! "keySwapAttached" = Some "true".
Proof.
  destruct el as [cls hd ls ds]; simpl. intros ->.
  destruct hd as [h|]; simpl; rewrite ?Nat.eqb_refl; simpl;
    (split; [ reflexivity | split; [ reflexivity | split; [ reflexivity | ] ] ]);
    apply lookup_insert_eq.
Qed.

Lemma tracked_mono (n m : nat) (el : Element) :
  n <= m -> tracked n el -> tracked m el.
Proof.
  intros Hnm [Ht Hk]. split; [ exact Ht | ].
  intros h Hin. specialize (Hk h Hin). lia.
Qed.

Lemma rebound_mono (lo lo' hi hi' : nat) (el el' : Element) :
  lo' <= lo -> hi <= hi' -> rebound lo hi el el' -> rebound lo' hi' el el'.
Proof.
  intros Hlo Hhi [Hc Hr]. split; [ exact Hc | ].
  destruct (classProseMirror el); [ | exact Hr ].
  destruct Hr as (h & H1 & H2 & H3 & H4). exists h. repeat split; try assumption; lia.
Qed.

(** The loop of the message listener, editor by editor. *)
Lemma forEach_rebinds (els : list Element) (n : nat) :
  Forall (tracked n) els ->
  exists els' n',
    forEachProseMirror
      (fun n proseEditor =>
         (KeySwap.attachKeyHandler n (KeySwap.removeExistingHandler proseEditor), S n))
      els n = (els', n')
    /\ n <= n'
    /\ Forall2 (rebound n n') els els'
    /\ Forall (tracked n') els'.
Proof.
  revert n. induction els as [|el rest IH]; intros n Hall.
  - exists [], n. simpl. repeat split; auto.
  - inversion Hall as [|? ? Hel Hrest]; subst.
    simpl. destruct (classProseMirror el) eqn:C.
    + assert (Hrest' : Forall (tracked (S n)) rest).
      { eapply Forall_impl; [ exact Hrest | ].
        intros x Hx. eapply tracked_mono; [ | exact Hx ]. lia. }
      destruct (IH (S n) Hrest') as (rest' & n' & E & Hle & Hreb & Htr).
      rewrite E. eexists _, n'. split; [ reflexivity | ].
      destruct Hel as [Ht _].
      destruct (reattach_element n el Ht) as (R1 & R2 & R3 & R4).
      split; [ lia | split ].
      * constructor.
        -- split; [ exact R1 | ]. rewrite C. exists n.
           repeat split; try assumption; lia.
        -- eapply Forall2_impl; [ exact Hreb | ].
           intros x y Hxy. eapply rebound_mono; [ | | exact Hxy ]; lia.
      * constructor; [ | exact Htr ].
        split.
        -- rewrite R2, R3. reflexivity.
        -- rewrite R2. intros h [<- | []]. lia.
    + destruct (IH n Hrest) as (rest' & n' & E & Hle & Hreb & Htr).
      rewrite E. eexists _, n'. split; [ reflexivity | ].
      split; [ exact Hle | split ].
      * constructor; [ | exact Hreb ].
        split; [ reflexivity | ]. rewrite C. reflexivity.
      * constructor; [ | exact Htr ].
        eapply tracked_mono; [ | exact Hel ]. exact Hle.
Qed.

Lemma onFirst_rebinds (f : nat -> Element -> Element * nat)
    (pre : list Element) (el : Element) (post : list Element) (n : nat) :
  Forall (fun x => classProseMirror x = false) pre ->
  classProseMirror el = true ->
  onFirstProseMirror f (pre ++ el :: post) n = (pre ++ fst (f n el) :: post, snd (f n el)).
Proof.
  intros Hpre Hel. induction Hpre as [|x pre Hx _ IH]; simpl.
  - rewrite Hel. destruct (f n el); reflexivity.
  - rewrite Hx, IH. reflexivity.
Qed.

Lemma onFirst_nothing (f : nat -> Element -> Element * nat) (els : list Element) (n : nat) :
  Forall (fun x => classProseMirror x = false) els ->
  onFirstProseMirror f els n = (els, n).
Proof.
  intros Hall. induction Hall as [|x els Hx _ IH]; simpl; [ reflexivity | ].
  rewrite Hx, IH. reflexivity.
Qed.

Lemma rebound_origin (lo hi : nat) (els els' : list Element) (el' : Element) :
  Forall2 (rebound lo hi) els els' ->
  In el' els' ->
  exists el, In el els /\ rebound lo hi el el'.
Proof.
  intros Hall. induction Hall as [|x y xs ys Hxy _ IH]; intros Hin; [ destruct Hin | ].
  destruct Hin as [<- | Hin].
  - exists x. split; [ left; reflexivity | exact Hxy ].
  - destruct (IH Hin) as (el & Hel & Hr). exists el. split; [ right; exact Hel | exact Hr ].
Qed.

(** What the message listeners do to a page whose listeners are those the
    expando properties name. *)
Lemma message_rebinds_tracked_page (p : Page) (s : Settings) :
  wellTracked p ->
  (let p' := KeySwap.onMessage (SETTINGS_UPDATED s) p in
   currentSettings p' = s
   /\ (forall event,
         KeySwap.listener p' event = KeySwap.keyHandler s false (document p) event)
   /\ Forall2 (rebound (closures p) (closures p')) (elements p) (elements p')
   /\ (forall el' h,
         In el' (elements p') -> classProseMirror el' = true ->
         In h (keydownCapture el') ->
         keydownCapture el' = [h]
         /\ forall el, In el (elements p) -> ~ In h (keydownCapture el))
   /\ wellTracked p')
  /\ (let p' := KeySwapAlt.onMessage (SETTINGS_UPDATED s) p in
      currentSettings p' = s
      /\ (forall event,
            KeySwapAlt.listener p' event = KeySwapAlt.keyHandler s (document p) event)
      /\ (forall pre el post,
            elements p = pre ++ el :: post ->
            Forall (fun x => classProseMirror x = false) pre ->
            classProseMirror el = true ->
            exists el',
              elements p' = pre ++ el' :: post
              /\ rebound (closures p) (closures p') el el')
      /\ (Forall (fun x => classProseMirror x = false) (elements p) ->
          elements p' = elements p)).
Proof.
  intros Hwt. unfold wellTracked in Hwt. split.
  - unfold KeySwap.onMessage, SETTINGS_UPDATED; simpl.
    destruct (forEach_rebinds (elements p) (closures p) Hwt)
      as (els' & n' & E & Hle & Hreb & Htr).
    rewrite E; simpl.
    split; [ reflexivity | split; [ reflexivity | split; [ exact Hreb | split ] ] ].
    + intros el' h Hin Hcls Hh.
      destruct (rebound_origin _ _ _ _ _ Hreb Hin) as (el & Hel & Hc & Hr).
      rewrite Hc in Hcls. rewrite Hcls in Hr.
      destruct Hr as (h' & L & _ & Hrange & _).
      rewrite L in Hh. destruct Hh as [<- | []].
      split; [ exact L | ].
      intros old Hold Hin'.
      rewrite List.Forall_forall in Hwt. destruct (Hwt old Hold) as [_ Hk].
      specialize (Hk _ Hin'). lia.
    + exact Htr.
  - unfold KeySwapAlt.onMessage, SETTINGS_UPDATED; simpl.
    split; [ | split; [ | split ] ].
    + destruct (onFirstProseMirror _ (elements p) (closures p)); reflexivity.
    + intros event.
      destruct (onFirstProseMirror _ (elements p) (closures p)); reflexivity.
    + intros pre el post Hsplit Hpre Hel.
      rewrite Hsplit, (onFirst_rebinds _ pre el post _ Hpre Hel); simpl.
      eexists. split; [ reflexivity | ].
      assert (Ht : tracked (closures p) el).
      { rewrite List.Forall_forall in Hwt. apply Hwt. rewrite Hsplit.
        apply in_or_app. right. left. reflexivity. }
      destruct Ht as [Ht _].
      destruct (reattach_element_alt (closures p) el Ht) as (R1 & R2 & R3 & R4).
      split; [ exact R1 | ]. rewrite Hel. exists (closures p).
      repeat split; try assumption; lia.
    + intros Hnone. rewrite (onFirst_nothing _ _ _ Hnone). reflexivity.
Qed.

(** C6, counterexample.  A tab of the remapper without a guard flag shows
    two editors.  After a SETTINGS_UPDATED message the first editor has
    one listener and the second has none. *)
Lemma second_editor_is_left_unbound :
  map classProseMirror
      (elements (KeySwapAlt.onMessage (SETTINGS_UPDATED swapped) twoEditors))
  = [true; true]
  /\ map keydownCapture
       (elements (KeySwapAlt.onMessage (SETTINGS_UPDATED swapped) twoEditors))
     = [[1]; []].
Proof. split; vm_compute; reflexivity. Qed.

(** The hypothesis of C6 is an invariant of the tab: it holds when nothing
    is attached, and the mutation observer keeps it. *)
Lemma attachKeyHandler_tracked (n : nat) (el : Element) :
  tracked n el -> tracked (S n) (KeySwap.attachKeyHandler n el).
Proof.
  intros [Ht _]. destruct el as [cls hd ls ds]; simpl in Ht; subst ls.
  split.
  - destruct hd as [h|]; simpl; rewrite ?Nat.eqb_refl; reflexivity.
  - destruct hd as [h|]; simpl; rewrite ?Nat.eqb_refl; simpl;
      intros g [<- | []]; lia.
Qed.

Lemma forEach_tracked (f : nat -> Element -> Element * nat) (els : list Element) (n : nat) :
  (forall n el, tracked n el -> n <= snd (f n el) /\ tracked (snd (f n el)) (fst (f n el))) ->
  Forall (tracked n) els ->
  n <= snd (forEachProseMirror f els n)
  /\ Forall (tracked (snd (forEachProseMirror f els n))) (fst (forEachProseMirror f els n)).
Proof.
  intros Hf. revert n. induction els as [|el rest IH]; intros n Hall; simpl.
  - split; [ lia | constructor ].
  - inversion Hall as [|? ? Hel Hrest]; subst.
    destruct (classProseMirror el).
    + destruct (Hf n el Hel) as [Hle Hel'].
      destruct (f n el) as [el' n1]; simpl in Hle, Hel'.
      assert (Hrest' : Forall (tracked n1) rest).
      { eapply Forall_impl; [ exact Hrest | ].
        intros x Hx. eapply tracked_mono; [ exact Hle | exact Hx ]. }
      destruct (IH n1 Hrest') as [Hle' Hall'].
      destruct (forEachProseMirror f rest n1) as [rest' n2]; simpl in *.
      split; [ lia | ].
      constructor; [ | exact Hall' ].
      eapply tracked_mono; [ exact Hle' | exact Hel' ].
    + destruct (IH n Hrest) as [Hle' Hall'].
      destruct (forEachProseMirror f rest n) as [rest' n2]; simpl in *.
      split; [ exact Hle' | ].
      constructor; [ | exact Hall' ].
      eapply tracked_mono; [ exact Hle' | exact Hel ].
Qed.

Lemma tryAttachHandler_wellTracked (p : Page) :
  wellTracked p -> wellTracked (KeySwap.tryAttachHandler p).
Proof.
  unfold wellTracked, KeySwap.tryAttachHandler. intros Hwt.
  match goal with
  | |- context [forEachProseMirror ?f _ _] =>
      pose proof (forEach_tracked f (elements p) (closures p)) as H
  end.
  destruct H as [_ H].
  - intros n el Hel. simpl.
    destruct (negb (truthy (dataset el !! "keySwapAttached"))
              || (dataset el !! "keySwapAttached" ==? "false")); simpl.
    + split; [ lia | apply attachKeyHandler_tracked; exact Hel ].
    + split; [ lia | exact Hel ].
  - exact Hwt.
  - destruct (forEachProseMirror _ (elements p) (closures p)); exact H.
Qed.

(** ** Installation *)

(** C7, the code at a fresh install.  The store holds nothing; the read
    with defaults answers the defaults, both of them truthy, so the test
    of the listener fails and nothing is written: the store still holds
    nothing. *)
Theorem install_on_empty_store_writes_nothing :
  ChromeStorage.get Background.DEFAULT_SETTINGS emptyStore
  = Some {| sendAction := "Enter"; newlineAction := "Shift+Enter" |}
  /\ Background.onInstalled "install" emptyStore = emptyStore
  /\ Background.onInstalled "update" emptyStore = emptyStore
  /\ ChromeStorage.items (Background.onInstalled "install" emptyStore) !! "sendAction" = None
  /\ ChromeStorage.items (Background.onInstalled "install" emptyStore) !! "newlineAction" = None.
Proof. repeat split. Qed.

(** The listener writes only when a stored value is the empty string. *)
Lemma onInstalled_keeps_store (reason : string) (store : ChromeStorage.Sync) :
  ChromeStorage.items store !! "sendAction" <> Some "" ->
  ChromeStorage.items store !! "newlineAction" <> Some "" ->
  Background.onInstalled reason store = store.
Proof.
  intros Hs Hn. unfold Background.onInstalled, ChromeStorage.get.
  destruct ((reason === "install") || (reason === "update")); [ | reflexivity ].
  destruct (ChromeStorage.failing store); [ reflexivity | ]. simpl.
  destruct (ChromeStorage.items store !! "sendAction") as [v|] eqn:Es;
    destruct (ChromeStorage.items store !! "newlineAction") as [w|] eqn:En; simpl;
    unfold truthyString;
    try (destruct (String.eqb_spec v "") as [-> | _]; [ congruence | ]);
    try (destruct (String.eqb_spec w "") as [-> | _]; [ congruence | ]);
    reflexivity.
Qed.

(** ** Reading the settings *)

(** C9.  When the read of the store is rejected, [loadSettings] of the
    remapper with the guard flag sets [currentSettings] to sendAction =
    Enter and newlineAction = Shift+Enter.  The page is then the very page
    a successful read of the defaults leaves, for instance from an empty
    store, so the handler does the same on every event and every run of
    the event loop from it is the same. *)
Theorem loadSettings_read_failure
    (p : Page) (store okStore : ChromeStorage.Sync) :
  ChromeStorage.failing store = true ->
  ChromeStorage.get KeySwap.DEFAULT_SETTINGS okStore = Some KeySwap.DEFAULT_SETTINGS ->
  currentSettings (KeySwap.loadSettings store p)
  = {| sendAction := "Enter"; newlineAction := "Shift+Enter" |}
  /\ KeySwap.loadSettings store p = KeySwap.loadSettings okStore p
  /\ KeySwap.loadSettings store p = KeySwap.loadSettings emptyStore p
  /\ (forall event,
        KeySwap.listener (KeySwap.loadSettings store p) event
        = KeySwap.listener (KeySwap.loadSettings okStore p) event)
  /\ (forall rounds fuel event,
        press KeySwap.listener rounds fuel event (KeySwap.loadSettings store p)
        = press KeySwap.listener rounds fuel event (KeySwap.loadSettings okStore p)).
Proof.
  intros Hf Hok.
  assert (E : KeySwap.loadSettings store p = KeySwap.loadSettings okStore p).
  { unfold KeySwap.loadSettings. rewrite Hok.
    unfold ChromeStorage.get. rewrite Hf. reflexivity. }
  split; [ | split; [ exact E | split; [ | split ] ] ].
  - unfold KeySwap.loadSettings, ChromeStorage.get. rewrite Hf. reflexivity.
  - unfold KeySwap.loadSettings at 1. unfold ChromeStorage.get. rewrite Hf. reflexivity.
  - intros event. rewrite E. reflexivity.
  - intros rounds fuel event. rewrite E. reflexivity.
Qed.

Lemma loadSettings_read_failure_witness :
  currentSettings (KeySwap.loadSettings brokenStore (freshPage swapped noSendButton))
  = {| sendAction := "Enter"; newlineAction := "Shift+Enter" |}.
Proof.
  exact (proj1 (loadSettings_read_failure (freshPage swapped noSendButton)
                  brokenStore emptyStore eq_refl eq_refl)).
Defined.

(** The remapper without a guard flag falls back to defaults of its own. *)
Lemma loadSettings_alt_read_failure (p : Page) (store : ChromeStorage.Sync) :
  ChromeStorage.failing store = true ->
  currentSettings (KeySwapAlt.loadSettings store p)
  = {| sendAction := "Alt+Enter"; newlineAction := "Enter" |}.
Proof.
  intros Hf. unfold KeySwapAlt.loadSettings, ChromeStorage.get. rewrite Hf. reflexivity.
Qed.

(** ** The settings-free content script *)

Lemma keydownListener_acts_iff (e : KeyboardEvent) :
  EnterFix.keydownListener e <> []
  <-> key e = "Enter" /\ shiftKey e = false /\ altKey e = false.
Proof.
  unfold EnterFix.keydownListener.
  destruct (String.eqb_spec (key e) "Enter") as [K | K];
    destruct (shiftKey e), (altKey e); simpl; split;
    try (intros H; exfalso; apply H; reflexivity);
    try (intros (? & ? & ?); congruence);
    try (intros _; repeat split; assumption);
    try discriminate.
Qed.

(** The listener tests Shift and Alt only: Ctrl and Meta do not keep it
    from converting the press. *)
Lemma keydownListener_ignores_ctrl_meta (ctrl meta : bool) :
  EnterFix.keydownListener (enterPress false false ctrl meta)
  = [ PreventDefault; StopImmediatePropagation;
      DispatchEvent (Some 0) EnterFix.fakeShiftEnterEvent ].
Proof. reflexivity. Qed.

(** C10.  In content.js the listener acts exactly on an Enter keydown with
    Shift and Alt both up, and the event it dispatches has Shift down, so
    the listener, called again for that event, makes no call.  A press of
    Enter with Shift and Alt up therefore ends, with enough fuel, after
    two calls of the listener: the one for the press, which dispatches one
    event, and the one for that event, which does nothing. *)
Theorem enterfix_fake_event_is_inert
    (p : Page) (e : KeyboardEvent) (fuel : nat) :
  key e = "Enter" -> shiftKey e = false -> altKey e = false ->
  4 <= fuel ->
  (forall e', EnterFix.keydownListener e' <> [] ->
              key e' = "Enter" /\ shiftKey e' = false /\ altKey e' = false)
  /\ shiftKey EnterFix.fakeShiftEnterEvent = true
  /\ (forall on, EnterFix.keydownListener (withTarget on EnterFix.fakeShiftEnterEvent) = [])
  /\ EnterFix.keydownListener e
     = [ PreventDefault; StopImmediatePropagation;
         DispatchEvent (target e) EnterFix.fakeShiftEnterEvent ]
  /\ keydown EnterFix.listener fuel e p
     = Some (recordCall (withTarget (target e) EnterFix.fakeShiftEnterEvent) []
               (recordCall e (EnterFix.keydownListener e) p)).
Proof.
  intros K S A Hf.
  assert (L : EnterFix.keydownListener e
              = [ PreventDefault; StopImmediatePropagation;
                  DispatchEvent (target e) EnterFix.fakeShiftEnterEvent ]).
  { unfold EnterFix.keydownListener. rewrite K, S, A. reflexivity. }
  split; [ intros e'; apply keydownListener_acts_iff | ].
  split; [ reflexivity | split; [ intros on; reflexivity | split; [ exact L | ] ] ].
  destruct fuel as [|[|[|[|fuel]]]]; try lia.
  unfold keydown, EnterFix.listener. rewrite L. reflexivity.
Qed.

Lemma enterfix_fake_event_is_inert_witness :
  keydown EnterFix.listener 4 (enterPress false false false false)
    (freshPage swapped noSendButton)
  = Some (recordCall (withTarget (Some 0) EnterFix.fakeShiftEnterEvent) []
            (recordCall (enterPress false false false false)
               (EnterFix.keydownListener (enterPress false false false false))
               (freshPage swapped noSendButton))).
Proof.
  refine (proj2 (proj2 (proj2 (proj2 (enterfix_fake_event_is_inert
                                 (freshPage swapped noSendButton)
                                 (enterPress false false false false) 4 _ _ _ _))))).
  - reflexivity.
  - reflexivity.
  - reflexivity.
  - lia.
Defined.

(** ** The guard flag and the settings message *)

(** The message listener clears the guard flag.  When a message arrives
    between a converted press and its timer, the fake Shift+Enter is
    handled with the flag clear: under Shift+Enter = send it is suppressed
    and the send button is clicked. *)
Lemma message_clears_the_guard :
  exists p1,
    keydown KeySwap.listener 5 (enterPress false false false false)
      (freshPage swapped withSendButton) = Some p1
    /\ isProcessingFakeEvent p1 = true
    /\ isProcessingFakeEvent (KeySwap.onMessage (SETTINGS_UPDATED swapped) p1) = false
    /\ option_map history
         (settle KeySwap.listener 2 5 (KeySwap.onMessage (SETTINGS_UPDATED swapped) p1))
       = Some [ (enterPress false false false false,
                 KeySwap.convertNewline (enterPress false false false false)
                   true (Some "Shift+Enter"));
                (withTarget (Some 0) (KeySwap.createFakeEvent "Shift+Enter"),
                 [ PreventDefault; StopImmediatePropagation; Click (mkButton 1 false) ]) ].
Proof.
  eexists. split; [ reflexivity | ].
  split; [ reflexivity | split; reflexivity ].
Qed.

(** * Further properties of the scripts *)

(** ** Chords and fake events *)

(** What a match tells about the action string and the event. *)
Lemma isKeyMatch_inversion (event : KeyboardEvent) (action : string) :
  KeySwap.isKeyMatch event action = true ->
  In action chords
  /\ key event = "Enter"
  /\ modifiers event = impliedModifiers action.
Proof.
  intros M.
  assert (Hin : In action chords).
  { revert M. unfold KeySwap.isKeyMatch.
    destruct (negb (key event === "Enter")); [ discriminate | ].
    destruct (String.eqb_spec action "Enter") as [E | _]; [ rewrite E; simpl; tauto | ].
    destruct (String.eqb_spec action "Shift+Enter") as [E | _]; [ rewrite E; simpl; tauto | ].
    destruct (String.eqb_spec action "Alt+Enter") as [E | _]; [ rewrite E; simpl; tauto | ].
    destruct (String.eqb_spec action "Ctrl+Enter") as [E | _]; [ rewrite E; simpl; tauto | ].
    discriminate. }
  split; [ exact Hin | ].
  apply (isKeyMatch_iff event action Hin). exact M.
Qed.

Lemma impliedModifiers_injective (a b : string) :
  In a chords -> In b chords ->
  impliedModifiers a = impliedModifiers b -> a = b.
Proof.
  intros Ha Hb. chord_cases Ha; chord_cases Hb;
    unfold impliedModifiers; simpl; intros E; congruence.
Qed.

(** X1.  An event matches at most one action: two action strings that
    [isKeyMatch] both accepts for the same event are equal. *)
Theorem matches_at_most_one_chord (event : KeyboardEvent) (a b : string) :
  KeySwap.isKeyMatch event a = true ->
  KeySwap.isKeyMatch event b = true ->
  a = b.
Proof.
  intros Ma Mb.
  destruct (isKeyMatch_inversion _ _ Ma) as (Ha & _ & Ea).
  destruct (isKeyMatch_inversion _ _ Mb) as (Hb & _ & Eb).
  apply impliedModifiers_injective; try assumption. congruence.
Qed.

Lemma matches_at_most_one_chord_witness :
  KeySwap.isKeyMatch (enterPress false true false false) "Alt+Enter" = true
  /\ "Alt+Enter" = "Alt+Enter".
Proof.
  split; [ reflexivity | ].
  exact (matches_at_most_one_chord (enterPress false true false false)
           "Alt+Enter" "Alt+Enter" eq_refl eq_refl).
Defined.

(** X2.  The fake event built for one of the four chords is an Enter
    keydown that [isKeyMatch] accepts for that chord and for no other
    action, on whatever element it is dispatched. *)
Theorem fake_event_matches_its_chord
    (chord action : string) (on : option nat) :
  In chord chords ->
  key (KeySwap.createFakeEvent chord) = "Enter"
  /\ metaKey (KeySwap.createFakeEvent chord) = false
  /\ (KeySwap.isKeyMatch (withTarget on (KeySwap.createFakeEvent chord)) action = true
      <-> action = chord).
Proof.
  intros Hc. split; [ reflexivity | split; [ reflexivity | ] ].
  assert (Own : KeySwap.isKeyMatch (withTarget on (KeySwap.createFakeEvent chord)) chord = true)
    by (chord_cases Hc; reflexivity).
  split.
  - intros M.
    destruct (isKeyMatch_inversion _ _ M) as (Ha & _ & Ea).
    destruct (isKeyMatch_inversion _ _ Own) as (_ & _ & Ec).
    apply impliedModifiers_injective; try assumption. congruence.
  - intros ->. exact Own.
Qed.

Lemma fake_event_matches_its_chord_witness :
  In "Ctrl+Enter" chords
  /\ (KeySwap.isKeyMatch (withTarget (Some 3) (KeySwap.createFakeEvent "Ctrl+Enter"))
        "Shift+Enter" = true
      <-> "Shift+Enter" = "Ctrl+Enter").
Proof.
  split; [ simpl; tauto | ].
  refine (proj2 (proj2 (fake_event_matches_its_chord "Ctrl+Enter" "Shift+Enter" (Some 3) _))).
  simpl; tauto.
Defined.

(** X3.  The older [isKeyMatch] is the newer one with the chord
    Ctrl+Enter taken out: it agrees with it on every other action and
    never accepts Ctrl+Enter.  A sendAction of Ctrl+Enter, which the popup
    offers, therefore leaves the older handler doing what it does when
    sendAction is Enter: it never clicks and never fakes a send. *)
Theorem older_isKeyMatch_lacks_ctrl
    (event : KeyboardEvent) (action newline : string) (d : Document) :
  KeySwapAlt.isKeyMatch event action
  = KeySwap.isKeyMatch event action && negb (action === "Ctrl+Enter")
  /\ KeySwapAlt.keyHandler {| sendAction := "Ctrl+Enter"; newlineAction := newline |} d event
     = KeySwapAlt.keyHandler {| sendAction := "Enter"; newlineAction := newline |} d event
  /\ existsb clicks
       (KeySwapAlt.keyHandler {| sendAction := "Ctrl+Enter"; newlineAction := newline |} d event)
     = false.
Proof.
  assert (A : KeySwapAlt.isKeyMatch event action
              = KeySwap.isKeyMatch event action && negb (action === "Ctrl+Enter")).
  { unfold KeySwapAlt.isKeyMatch, KeySwap.isKeyMatch.
    destruct (negb (key event === "Enter")); [ reflexivity | ].
    destruct (String.eqb_spec action "Enter") as [-> | _];
      [ simpl; rewrite andb_true_r; reflexivity | ].
    destruct (String.eqb_spec action "Shift+Enter") as [-> | _];
      [ simpl; rewrite andb_true_r; reflexivity | ].
    destruct (String.eqb_spec action "Alt+Enter") as [-> | _];
      [ simpl; rewrite andb_true_r; reflexivity | ].
    destruct (action === "Ctrl+Enter"); simpl; rewrite ?andb_false_r; reflexivity. }
  assert (B : KeySwapAlt.keyHandler {| sendAction := "Ctrl+Enter"; newlineAction := newline |} d event
              = KeySwapAlt.keyHandler {| sendAction := "Enter"; newlineAction := newline |} d event).
  { unfold KeySwapAlt.keyHandler; simpl.
    rewrite isKeyMatch_alt_Ctrl.
    destruct (negb (key event === "Enter")); [ reflexivity | ].
    destruct (KeySwapAlt.isKeyMatch event newline); [ reflexivity | ].
    destruct (KeySwapAlt.isKeyMatch event "Enter"); reflexivity. }
  split; [ exact A | split; [ exact B | ] ].
  rewrite B. unfold KeySwapAlt.keyHandler; simpl.
  destruct (negb (key event === "Enter")); [ reflexivity | ].
  destruct (KeySwapAlt.isKeyMatch event newline).
  - destruct (newline === "Enter"); reflexivity.
  - destruct (KeySwapAlt.isKeyMatch event "Enter"); reflexivity.
Qed.

(** ** What the handlers never do *)

(** X4.  Both configurable handlers click nothing but the button the
    first successful selector finds, and only when it is enabled, the
    event matches sendAction and sendAction is not Enter; the one with the
    guard flag only when the flag is clear. *)
Theorem click_only_the_enabled_send_button
    (s : Settings) (g : bool) (d : Document) (event : KeyboardEvent) (b : Button) :
  (In (Click b) (KeySwap.keyHandler s g d event) ->
   KeySwap.sendButton d = Some b /\ disabled b = false /\ g = false
   /\ KeySwap.isKeyMatch event (sendAction s) = true /\ sendAction s <> "Enter")
  /\ (In (Click b) (KeySwapAlt.keyHandler s d event) ->
      KeySwapAlt.sendButton d = Some b /\ disabled b = false
      /\ KeySwapAlt.isKeyMatch event (sendAction s) = true /\ sendAction s <> "Enter").
Proof.
  split.
  - unfold KeySwap.keyHandler.
    destruct (negb (key event === "Enter")); [ intros [] | ].
    destruct g; [ intros [] | ].
    destruct (KeySwap.isKeyMatch event (newlineAction s)).
    + destruct (newlineAction s === "Shift+Enter"); [ intros [] | ].
      simpl. intros [H|[H|[H|[H|[]]]]]; discriminate.
    + destruct (KeySwap.isKeyMatch event (sendAction s)); [ | intros [] ].
      destruct (String.eqb_spec (sendAction s) "Enter") as [_ | Hne]; [ intros [] | ].
      destruct (KeySwap.sendButton d) as [b'|];
        [ | intros [H|[H|[]]]; discriminate ].
      destruct (disabled b') eqn:Dis; simpl;
        [ intros [H|[H|[]]]; discriminate | ].
      intros [H|[H|[H|[]]]]; try discriminate.
      injection H as ->. repeat split; assumption.
  - unfold KeySwapAlt.keyHandler, KeySwapAlt.convert.
    destruct (negb (key event === "Enter")); [ intros [] | ].
    destruct (KeySwapAlt.isKeyMatch event (newlineAction s)).
    + destruct (newlineAction s === "Enter"); simpl; [ | intros [] ].
      intros [H|[H|[H|[]]]]; discriminate.
    + destruct (KeySwapAlt.isKeyMatch event (sendAction s)); [ | intros [] ].
      destruct (String.eqb_spec (sendAction s) "Enter") as [_ | Hne]; simpl; [ intros [] | ].
      destruct (KeySwapAlt.sendButton d) as [b'|];
        [ | intros [H|[H|[H|[]]]]; discriminate ].
      destruct (disabled b') eqn:Dis; simpl;
        [ intros [H|[H|[H|[]]]]; discriminate | ].
      intros [H|[H|[H|[]]]]; try discriminate.
      injection H as ->. repeat split; assumption.
Qed.

(** X5.  A listener that makes any call at all is handling an Enter
    keydown, and its first two calls are preventDefault and
    stopImmediatePropagation: none of the three listeners clicks,
    dispatches or starts a timer for an event it lets through. *)
Theorem acts_only_after_suppressing
    (s : Settings) (g : bool) (d : Document) (event : KeyboardEvent) :
  (KeySwap.keyHandler s g d event = []
   \/ key event = "Enter"
      /\ exists rest, KeySwap.keyHandler s g d event
                      = PreventDefault :: StopImmediatePropagation :: rest)
  /\ (KeySwapAlt.keyHandler s d event = []
      \/ key event = "Enter"
         /\ exists rest, KeySwapAlt.keyHandler s d event
                         = PreventDefault :: StopImmediatePropagation :: rest)
  /\ (EnterFix.keydownListener event = []
      \/ key event = "Enter"
         /\ exists rest, EnterFix.keydownListener event
                         = PreventDefault :: StopImmediatePropagation :: rest).
Proof.
  unfold KeySwap.keyHandler, KeySwapAlt.keyHandler, KeySwapAlt.convert,
         EnterFix.keydownListener.
  destruct (String.eqb_spec (key event) "Enter") as [K | K]; simpl;
    [ | repeat split; left; reflexivity ].
  split; [ | split ].
  - destruct g; [ left; reflexivity | ].
    destruct (KeySwap.isKeyMatch event (newlineAction s)).
    + destruct (newlineAction s === "Shift+Enter"); [ left; reflexivity | ].
      right. split; [ exact K | eexists; reflexivity ].
    + destruct (KeySwap.isKeyMatch event (sendAction s)); [ | left; reflexivity ].
      destruct (sendAction s === "Enter"); [ left; reflexivity | ].
      right. split; [ exact K | eexists; reflexivity ].
  - destruct (KeySwapAlt.isKeyMatch event (newlineAction s)).
    + destruct (newlineAction s === "Enter"); simpl; [ | left; reflexivity ].
      right. split; [ exact K | eexists; reflexivity ].
    + destruct (KeySwapAlt.isKeyMatch event (sendAction s)); [ | left; reflexivity ].
      destruct (sendAction s === "Enter"); simpl; [ left; reflexivity | ].
      right. split; [ exact K | eexists; reflexivity ].
  - destruct (negb (shiftKey event) && negb (altKey event)); [ | left; reflexivity ].
    right. split; [ exact K | eexists; reflexivity ].
Qed.

(** X6.  In the handler with the guard flag the two actions do not leak
    into each other when they are set to different chords: an event that
    matches sendAction never leads to a dispatched event, now or from a
    timer, and an event that matches newlineAction never clicks. *)
Theorem send_never_breaks_the_line
    (s : Settings) (g : bool) (d : Document) (event : KeyboardEvent) :
  sendAction s <> newlineAction s ->
  (KeySwap.isKeyMatch event (sendAction s) = true ->
   existsb dispatches (KeySwap.keyHandler s g d event) = false)
  /\ (KeySwap.isKeyMatch event (newlineAction s) = true ->
      existsb clicks (KeySwap.keyHandler s g d event) = false).
Proof.
  intros Hne. split.
  - intros Ms.
    assert (Mn : KeySwap.isKeyMatch event (newlineAction s) = false).
    { destruct (KeySwap.isKeyMatch event (newlineAction s)) eqn:E; [ | reflexivity ].
      exfalso. apply Hne.
      destruct (isKeyMatch_inversion _ _ Ms) as (Ha & _ & Ea).
      destruct (isKeyMatch_inversion _ _ E) as (Hb & _ & Eb).
      apply impliedModifiers_injective; try assumption. congruence. }
    unfold KeySwap.keyHandler. rewrite Mn, Ms.
    destruct (negb (key event === "Enter")); [ reflexivity | ].
    destruct g; [ reflexivity | ].
    destruct (sendAction s === "Enter"); [ reflexivity | ].
    destruct (KeySwap.sendButton d) as [b|]; [ | reflexivity ].
    destruct (negb (disabled b)); reflexivity.
  - intros Mn. unfold KeySwap.keyHandler. rewrite Mn.
    destruct (negb (key event === "Enter")); [ reflexivity | ].
    destruct g; [ reflexivity | ].
    destruct (newlineAction s === "Shift+Enter"); reflexivity.
Qed.

Lemma send_never_breaks_the_line_witness :
  sendAction swapped <> newlineAction swapped
  /\ existsb dispatches
       (KeySwap.keyHandler swapped false withSendButton (enterPress true false false false))
     = false.
Proof.
  split; [ simpl; discriminate | ].
  refine (proj1 (send_never_breaks_the_line swapped false withSendButton
                   (enterPress true false false false) _) _).
  - simpl; discriminate.
  - reflexivity.
Defined.



Lemma click_only_the_enabled_send_button_witness :
  In (Click (mkButton 1 false))
     (KeySwap.keyHandler swapped false withSendButton (enterPress true false false false))
  /\ KeySwap.sendButton withSendButton = Some (mkButton 1 false)
  /\ disabled (mkButton 1 false) = false.
Proof.
  assert (Hin : In (Click (mkButton 1 false))
                   (KeySwap.keyHandler swapped false withSendButton
                      (enterPress true false false false)))
    by (right; right; left; reflexivity).
  split; [ exact Hin | ].
  destruct (proj1 (click_only_the_enabled_send_button swapped false withSendButton
                     (enterPress true false false false) (mkButton 1 false)) Hin)
    as (H1 & H2 & _).
  split; [ exact H1 | exact H2 ].
Defined.

(** ** Binding the handler to the editors *)

(** A second pass over the editors changes nothing when the function of
    the second pass leaves alone whatever the first pass produced. *)
Lemma forEach_settled (f g : nat -> Element -> Element * nat)
    (els : list Element) (n m : nat) :
  (forall n el m, f m (fst (g n el)) = (fst (g n el), m)) ->
  forEachProseMirror f (fst (forEachProseMirror g els n)) m
  = (fst (forEachProseMirror g els n), m).
Proof.
  intros Hfg. revert n m. induction els as [|el rest IH]; intros n m; simpl.
  - reflexivity.
  - destruct (classProseMirror el) eqn:C.
    + pose proof (Hfg n el) as Hel.
      destruct (g n el) as [el' n1]; simpl in Hel.
      specialize (IH n1).
      destruct (forEachProseMirror g rest n1) as [rest' n2]; simpl in *.
      destruct (classProseMirror el').
      * rewrite Hel, IH. reflexivity.
      * rewrite IH. reflexivity.
    + specialize (IH n).
      destruct (forEachProseMirror g rest n) as [rest' n2]; simpl in *.
      rewrite C, IH. reflexivity.
Qed.

Lemma onFirst_settled (f g : nat -> Element -> Element * nat)
    (els : list Element) (n m : nat) :
  (forall n el m, f m (fst (g n el)) = (fst (g n el), m)) ->
  (forall n el, classProseMirror (fst (g n el)) = classProseMirror el) ->
  onFirstProseMirror f (fst (onFirstProseMirror g els n)) m
  = (fst (onFirstProseMirror g els n), m).
Proof.
  intros Hfg Hcls. revert n m. induction els as [|el rest IH]; intros n m; simpl.
  - reflexivity.
  - destruct (classProseMirror el) eqn:C.
    + pose proof (Hfg n el) as Hel. pose proof (Hcls n el) as Hc.
      destruct (g n el) as [el' n1]; simpl in *.
      rewrite Hc, C, Hel. reflexivity.
    + specialize (IH n).
      destruct (onFirstProseMirror g rest n) as [rest' n2]; simpl in *.
      rewrite C, IH. reflexivity.
Qed.

Lemma attachKeyHandler_marked (n : nat) (el : Element) :
  dataset (KeySwap.attachKeyHandler n el) !! "keySwapAttached" = Some "true"
  /\ classProseMirror (KeySwap.attachKeyHandler n el) = classProseMirror el.
Proof.
  unfold KeySwap.attachKeyHandler, KeySwap.removeExistingHandler.
  destruct (keySwapHandler el); simpl; split;
    try apply lookup_insert_eq; reflexivity.
Qed.

Lemma attachKeyHandler_alt_marked (n : nat) (el : Element) :
  dataset (KeySwapAlt.attachKeyHandler n el) !! "keySwapAttached" = Some "true"
  /\ classProseMirror (KeySwapAlt.attachKeyHandler n el) = classProseMirror el.
Proof.
  unfold KeySwapAlt.attachKeyHandler, KeySwapAlt.removeExistingHandler.
  destruct (keySwapHandler el); simpl; split;
    try apply lookup_insert_eq; reflexivity.
Qed.

Lemma attachEnterKeyHandler_marked (c m : nat) (prose : Element) :
  EnterFix.attachEnterKeyHandler m (fst (EnterFix.attachEnterKeyHandler c prose))
  = (fst (EnterFix.attachEnterKeyHandler c prose), m)
  /\ classProseMirror (fst (EnterFix.attachEnterKeyHandler c prose))
     = classProseMirror prose.
Proof.
  unfold EnterFix.attachEnterKeyHandler.
  destruct (dataset prose !! "enterFixAttached" ==? "true") eqn:E; simpl.
  - rewrite E. split; reflexivity.
  - rewrite lookup_insert_eq. simpl. split; reflexivity.
Qed.

(** X8.  The callback of the mutation observer is idempotent in each of
    the three scripts: run again on the page it has just left, it changes
    nothing, creates no closure and attaches no second listener. *)
Theorem tryAttachHandler_idempotent (p : Page) :
  KeySwap.tryAttachHandler (KeySwap.tryAttachHandler p) = KeySwap.tryAttachHandler p
  /\ KeySwapAlt.tryAttachHandler (KeySwapAlt.tryAttachHandler p)
     = KeySwapAlt.tryAttachHandler p
  /\ EnterFix.tryAttachHandler (EnterFix.tryAttachHandler p) = EnterFix.tryAttachHandler p.
Proof.
  split; [ | split ].
  - unfold KeySwap.tryAttachHandler.
    match goal with
    | |- context [forEachProseMirror ?f (elements p) (closures p)] =>
        pose proof (forEach_settled f f (elements p) (closures p)) as H;
        destruct (forEachProseMirror f (elements p) (closures p)) as [els1 n1]
    end.
    simpl in *. rewrite H; [ reflexivity | ].
    intros n el m.
    destruct (negb (truthy (dataset el !! "keySwapAttached"))
              || (dataset el !! "keySwapAttached" ==? "false")) eqn:C; cbn [fst].
    + rewrite (proj1 (attachKeyHandler_marked n el)). reflexivity.
    + rewrite C. reflexivity.
  - unfold KeySwapAlt.tryAttachHandler.
    match goal with
    | |- context [onFirstProseMirror ?f (elements p) (closures p)] =>
        pose proof (onFirst_settled f f (elements p) (closures p)) as H;
        destruct (onFirstProseMirror f (elements p) (closures p)) as [els1 n1]
    end.
    simpl in *. rewrite H; [ reflexivity | | ].
    + intros n el m.
      destruct (negb (truthy (dataset el !! "keySwapAttached"))) eqn:C; cbn [fst].
      * rewrite (proj1 (attachKeyHandler_alt_marked n el)). reflexivity.
      * rewrite C. reflexivity.
    + intros n el.
      destruct (negb (truthy (dataset el !! "keySwapAttached"))); cbn [fst];
        [ apply attachKeyHandler_alt_marked | reflexivity ].
  - unfold EnterFix.tryAttachHandler.
    pose proof (onFirst_settled EnterFix.attachEnterKeyHandler
                  EnterFix.attachEnterKeyHandler (elements p) (closures p)) as H.
    destruct (onFirstProseMirror EnterFix.attachEnterKeyHandler (elements p) (closures p))
      as [els1 n1].
    simpl in *. rewrite H; [ reflexivity | | ].
    + intros n el m. apply attachEnterKeyHandler_marked.
    + intros n el. apply (attachEnterKeyHandler_marked n 0 el).
Qed.

(** X9.  After a SETTINGS_UPDATED message the mutation observer finds
    nothing to do: in both configurable remappers its callback leaves the
    page the message listener produced as it is. *)
Theorem observer_idle_after_message (p : Page) (s : Settings) :
  KeySwap.tryAttachHandler (KeySwap.onMessage (SETTINGS_UPDATED s) p)
  = KeySwap.onMessage (SETTINGS_UPDATED s) p
  /\ KeySwapAlt.tryAttachHandler (KeySwapAlt.onMessage (SETTINGS_UPDATED s) p)
     = KeySwapAlt.onMessage (SETTINGS_UPDATED s) p.
Proof.
  split.
  - unfold KeySwap.tryAttachHandler, KeySwap.onMessage, SETTINGS_UPDATED; simpl.
    match goal with
    | |- context [forEachProseMirror ?g (elements p) (closures p)] =>
        pose proof (fun f => forEach_settled f g (elements p) (closures p)) as H;
        destruct (forEachProseMirror g (elements p) (closures p)) as [els1 n1]
    end.
    simpl in *. rewrite H; [ reflexivity | ].
    intros n el m. cbn [fst].
    rewrite (proj1 (attachKeyHandler_marked n (KeySwap.removeExistingHandler el))).
    reflexivity.
  - unfold KeySwapAlt.tryAttachHandler, KeySwapAlt.onMessage, SETTINGS_UPDATED; simpl.
    match goal with
    | |- context [onFirstProseMirror ?g (elements p) (closures p)] =>
        pose proof (fun f => onFirst_settled f g (elements p) (closures p)) as H;
        destruct (onFirstProseMirror g (elements p) (closures p)) as [els1 n1]
    end.
    simpl in *. rewrite H; [ reflexivity | | ].
    + intros n el m. cbn [fst].
      rewrite (proj1 (attachKeyHandler_alt_marked n
                        (setDataset "keySwapAttached" "false" el))).
      reflexivity.
    + intros n el. cbn [fst].
      apply (attachKeyHandler_alt_marked n (setDataset "keySwapAttached" "false" el)).
Qed.

(** ** An invariant of the tab *)

(** Carrying out calls never touches the elements or the closure count. *)
Lemma perform_keeps_elements (handler : Page -> KeyboardEvent -> list Effect)
    (fuel : nat) (effs : list Effect) (p p' : Page) :
  perform handler fuel effs p = Some p' ->
  elements p' = elements p /\ closures p' = closures p.
Proof.
  revert effs p p'. induction fuel as [|fuel IH]; intros effs p p' H; [ discriminate | ].
  simpl in H. destruct effs as [|eff rest].
  - injection H as <-. split; reflexivity.
  - destruct eff as [ | | b | v | on e | cb delay ].
    + apply IH in H. exact H.
    + apply IH in H. exact H.
    + apply IH in H. exact H.
    + apply IH in H. exact H.
    + destruct (perform handler fuel (handler p (withTarget on e))
                  (recordCall (withTarget on e) (handler p (withTarget on e)) p))
        as [q|] eqn:E; [ | discriminate ].
      apply IH in E. apply IH in H. destruct E as [E1 E2], H as [H1 H2].
      simpl in E1, E2. split; congruence.
    + apply IH in H. exact H.
Qed.

Lemma unbound_tracked (n : nat) (el : Element) : unbound el -> tracked n el.
Proof.
  intros [Hh Hl]. split.
  - rewrite Hh, Hl. reflexivity.
  - rewrite Hl. intros h [].
Qed.

Lemma onMessage_wellTracked (m : Message) (p : Page) :
  wellTracked p -> wellTracked (KeySwap.onMessage m p).
Proof.
  intros Hwt. unfold KeySwap.onMessage.
  destruct (type m === "SETTINGS_UPDATED"); [ | exact Hwt ].
  unfold wellTracked in *. simpl.
  destruct (forEach_rebinds (elements p) (closures p) Hwt) as (els' & n' & E & _ & _ & Htr).
  rewrite E. exact Htr.
Qed.

Lemma tabStep_wellTracked (p p' : Page) :
  tabStep p p' -> wellTracked p -> wellTracked p'.
Proof.
  intros Hstep Hwt. destruct Hstep as [store p | p | m p | fuel e p p' H | fuel p p' H | els p H].
  - unfold KeySwap.loadSettings.
    destruct (ChromeStorage.get KeySwap.DEFAULT_SETTINGS store); exact Hwt.
  - apply tryAttachHandler_wellTracked; exact Hwt.
  - apply onMessage_wellTracked; exact Hwt.
  - unfold keydown in H. apply perform_keeps_elements in H.
    destruct H as [He Hc]. unfold wellTracked. rewrite He, Hc. exact Hwt.
  - unfold fire in H. destruct (timers p) as [|t rest].
    + injection H as <-. exact Hwt.
    + apply perform_keeps_elements in H.
      destruct H as [He Hc]. unfold wellTracked. rewrite He, Hc. exact Hwt.
  - unfold wellTracked in *. simpl. apply List.Forall_forall. intros el Hin.
    destruct (H el Hin) as [Hold | Hnew].
    + rewrite List.Forall_forall in Hwt. apply Hwt; exact Hold.
    + apply unbound_tracked; exact Hnew.
Qed.

(** X10.  Whatever happens in a tab of the remapper with the guard flag
    (settings reads, observer runs, messages, key presses, timers, changes
    of the document by the host page), every element carries at most one
    listener of the script, that listener is the one its expando property
    names, and an element without the property carries none. *)
Theorem tab_never_duplicates_handlers (p : Page) :
  tabReachable p ->
  wellTracked p
  /\ forall el, In el (elements p) ->
       length (keydownCapture el) <= 1
       /\ (forall h, In h (keydownCapture el) -> keySwapHandler el = Some h)
       /\ (keySwapHandler el = None -> keydownCapture el = []).
Proof.
  intros Hr.
  assert (Hwt : wellTracked p).
  { induction Hr as [s d els Hall | p p' _ IH Hstep].
    - unfold wellTracked; simpl. eapply Forall_impl; [ exact Hall | ].
      intros el. apply unbound_tracked.
    - eapply tabStep_wellTracked; eassumption. }
  split; [ exact Hwt | ].
  intros el Hin. unfold wellTracked in Hwt. rewrite List.Forall_forall in Hwt.
  destruct (Hwt el Hin) as [Ht _]. rewrite Ht.
  destruct (keySwapHandler el) as [h|]; simpl.
  - split; [ lia | split ].
    + intros g [<- | []]. reflexivity.
    + discriminate.
  - split; [ lia | split ].
    + intros g [].
    + reflexivity.
Qed.

Lemma tab_never_duplicates_handlers_witness :
  tabReachable (KeySwap.tryAttachHandler
                  (KeySwap.onMessage (SETTINGS_UPDATED swapped) threeElements))
  /\ wellTracked (KeySwap.tryAttachHandler
                    (KeySwap.onMessage (SETTINGS_UPDATED swapped) threeElements)).
Proof.
  assert (R : tabReachable (KeySwap.tryAttachHandler
                              (KeySwap.onMessage (SETTINGS_UPDATED swapped) threeElements))).
  { apply tabNext with (p := KeySwap.onMessage (SETTINGS_UPDATED swapped) threeElements);
      [ | apply tabObserve ].
    apply tabNext with (p := threeElements); [ | apply tabMessage ].
    unfold threeElements. apply tabStart.
    repeat constructor. }
  split; [ exact R | ].
  exact (proj1 (tab_never_duplicates_handlers _ R)).
Defined.

(** X11.  [removeExistingHandler] undoes [attachKeyHandler]: on an element
    whose listeners are those its expando property names, attaching and
    then removing leaves no listener and no property, keeps the class, and
    marks the element "false", which the observer callback reads as not
    attached. *)
Theorem removeExistingHandler_undoes_attach (n m : nat) (el : Element) :
  tracked m el ->
  unbound (KeySwap.removeExistingHandler (KeySwap.attachKeyHandler n el))
  /\ classProseMirror (KeySwap.removeExistingHandler (KeySwap.attachKeyHandler n el))
     = classProseMirror el
  /\ dataset (KeySwap.removeExistingHandler (KeySwap.attachKeyHandler n el))
       !! "keySwapAttached" = Some "false"
  /\ keydownCapture
       (KeySwap.attachKeyHandler (S n)
          (KeySwap.removeExistingHandler (KeySwap.attachKeyHandler n el)))
     = [S n].
Proof.
  intros [Ht _]. destruct el as [cls hd ls ds]; simpl in Ht; subst ls.
  unfold unbound.
  destruct hd as [h|]; simpl; rewrite ?Nat.eqb_refl; simpl;
    rewrite ?Nat.eqb_refl; simpl;
    (split; [ split; reflexivity | split; [ reflexivity | split ] ]);
    try apply lookup_insert_eq; reflexivity.
Qed.

Lemma removeExistingHandler_undoes_attach_witness :
  tracked 0 freshEditor
  /\ unbound (KeySwap.removeExistingHandler (KeySwap.attachKeyHandler 0 freshEditor)).
Proof.
  assert (T : tracked 0 freshEditor) by (split; [ reflexivity | intros h [] ]).
  split; [ exact T | ].
  exact (proj1 (removeExistingHandler_undoes_attach 0 0 freshEditor T)).
Defined.

(** ** The marker of content.js *)

Lemma onFirst_Forall (P : Element -> Prop) (f : nat -> Element -> Element * nat)
    (els : list Element) (n : nat) :
  (forall n el, P el -> P (fst (f n el))) ->
  Forall P els ->
  Forall P (fst (onFirstProseMirror f els n)).
Proof.
  intros Hf Hall. revert n. induction Hall as [|el rest Hel Hrest IH]; intros n; simpl.
  - constructor.
  - destruct (classProseMirror el).
    + specialize (Hf n el Hel). destruct (f n el) as [el' n']; simpl in *.
      constructor; assumption.
    + specialize (IH n). destruct (onFirstProseMirror f rest n) as [rest' n']; simpl in *.
      constructor; assumption.
Qed.

Lemma attachEnterKeyHandler_bound (c : nat) (prose : Element) :
  enterFixBound prose -> enterFixBound (fst (EnterFix.attachEnterKeyHandler c prose)).
Proof.
  intros [Hlen Hmark]. unfold EnterFix.attachEnterKeyHandler.
  destruct (dataset prose !! "enterFixAttached" ==? "true") eqn:E; simpl.
  - split; assumption.
  - destruct (keydownCapture prose) as [|h ls] eqn:L.
    + unfold enterFixBound, addEventListener; simpl. rewrite L; simpl.
      split; [ lia | ]. intros _. apply lookup_insert_eq.
    + assert (M : dataset prose !! "enterFixAttached" = Some "true")
        by (apply Hmark; discriminate).
      rewrite M in E. discriminate.
Qed.

(** X12.  content.js never installs a second listener: when every element
    has at most one listener, and has one only if it is marked as
    attached, the same holds after the observer callback has run any
    number of times. *)
Theorem enterfix_never_duplicates_listeners (p : Page) (runs : nat) :
  Forall enterFixBound (elements p) ->
  Forall enterFixBound (elements (Nat.iter runs EnterFix.tryAttachHandler p))
  /\ forall el, In el (elements (Nat.iter runs EnterFix.tryAttachHandler p)) ->
       length (keydownCapture el) <= 1.
Proof.
  intros Hall.
  assert (H : Forall enterFixBound (elements (Nat.iter runs EnterFix.tryAttachHandler p))).
  { induction runs as [|runs IH]; simpl; [ exact Hall | ].
    unfold EnterFix.tryAttachHandler at 1.
    pose proof (onFirst_Forall enterFixBound EnterFix.attachEnterKeyHandler
                  (elements (Nat.iter runs EnterFix.tryAttachHandler p))
                  (closures (Nat.iter runs EnterFix.tryAttachHandler p))
                  attachEnterKeyHandler_bound IH) as Hnext.
    destruct (onFirstProseMirror EnterFix.attachEnterKeyHandler
                (elements (Nat.iter runs EnterFix.tryAttachHandler p))
                (closures (Nat.iter runs EnterFix.tryAttachHandler p))) as [els' n'].
    exact Hnext. }
  split; [ exact H | ].
  intros el Hin. rewrite List.Forall_forall in H. apply (H el Hin).
Qed.

Lemma enterfix_never_duplicates_listeners_witness :
  Forall enterFixBound (elements threeElements)
  /\ Forall enterFixBound (elements (Nat.iter 3 EnterFix.tryAttachHandler threeElements)).
Proof.
  assert (B : Forall enterFixBound (elements threeElements)).
  { unfold threeElements; simpl.
    repeat constructor; simpl; try lia; intros H; exfalso; apply H; reflexivity. }
  split; [ exact B | ].
  exact (proj1 (enterfix_never_duplicates_listeners threeElements 3 B)).
Defined.

(** ** The guard window *)




(** ** Fake events without a guard flag *)

Lemma convert_send_without_button (d : Document) (event : KeyboardEvent) :
  noClickableButton d ->
  KeySwapAlt.convert d event true (Some "Enter")
  = PreventDefault :: StopImmediatePropagation :: fakeSend event.
Proof.
  intros Hno. unfold KeySwapAlt.convert; simpl.
  destruct (KeySwapAlt.sendButton d) as [b|] eqn:E; [ | reflexivity ].
  rewrite (Hno b E). reflexivity.
Qed.

Lemma isKeyMatch_alt_Alt_not_Enter (event : KeyboardEvent) :
  KeySwapAlt.isKeyMatch event "Alt+Enter" = true ->
  (key event === "Enter") = true /\ KeySwapAlt.isKeyMatch event "Enter" = false.
Proof.
  unfold KeySwapAlt.isKeyMatch.
  destruct (key event === "Enter"); simpl; [ | discriminate ].
  destruct (shiftKey event), (altKey event), (ctrlKey event), (metaKey event);
    simpl; intros H; try discriminate; split; reflexivity.
Qed.

(** X14.  The older remapper under its own default settings (Alt+Enter
    sends, Enter breaks the line), with no send button that can be
    clicked: a press of Alt+Enter is suppressed and answered with a fake
    plain Enter, the handler takes that fake Enter for the newline chord
    and answers it with a fake Shift+Enter, which it lets through.  The
    page comes to rest after these three calls, and nothing was clicked. *)
Theorem older_send_fallback_breaks_the_line
    (p : Page) (event : KeyboardEvent) (rounds fuel : nat) :
  currentSettings p = KeySwapAlt.DEFAULT_SETTINGS ->
  noClickableButton (document p) ->
  timers p = [] ->
  KeySwapAlt.isKeyMatch event "Alt+Enter" = true ->
  2 <= rounds ->
  5 <= fuel ->
  exists p',
    press KeySwapAlt.listener rounds fuel event p = Some p'
    /\ timers p' = []
    /\ history p'
       = history p
         ++ [ (event, PreventDefault :: StopImmediatePropagation :: fakeSend event);
              (withTarget (target event) (KeySwapAlt.createFakeEvent "Enter"),
               [ PreventDefault; StopImmediatePropagation;
                 SetTimeout [ DispatchEvent (target event)
                                (KeySwapAlt.createFakeEvent "Shift+Enter") ] 10 ]);
              (withTarget (target event) (KeySwapAlt.createFakeEvent "Shift+Enter"), []) ].
Proof.
  intros Hs Hno Ht M Hr Hf.
  destruct p as [s g els n d c ts h]; simpl in Hs, Hno, Ht; subst s ts.
  destruct (isKeyMatch_alt_Alt_not_Enter event M) as [K Mn].
  assert (H1 : KeySwapAlt.keyHandler KeySwapAlt.DEFAULT_SETTINGS d event
               = PreventDefault :: StopImmediatePropagation :: fakeSend event).
  { unfold KeySwapAlt.keyHandler; simpl. rewrite K, Mn, M; simpl.
    apply convert_send_without_button; exact Hno. }
  destruct rounds as [|[|rounds]]; try lia.
  destruct fuel as [|[|[|[|[|fuel]]]]]; try lia.
  unfold press, keydown, KeySwapAlt.listener.
  cbn [currentSettings document]. rewrite H1. unfold fakeSend.
  eexists. split.
  - simpl. rewrite settle_at_rest by reflexivity. reflexivity.
  - split; [ reflexivity | ].
    simpl. rewrite <- !app_assoc. reflexivity.
Qed.

Lemma older_send_fallback_breaks_the_line_witness :
  exists p',
    press KeySwapAlt.listener 2 5 (enterPress false true false false)
      (freshPage KeySwapAlt.DEFAULT_SETTINGS noSendButton) = Some p'
    /\ timers p' = []
    /\ history p'
       = history (freshPage KeySwapAlt.DEFAULT_SETTINGS noSendButton)
         ++ [ (enterPress false true false false,
               PreventDefault :: StopImmediatePropagation
                 :: fakeSend (enterPress false true false false));
              (withTarget (target (enterPress false true false false))
                 (KeySwapAlt.createFakeEvent "Enter"),
               [ PreventDefault; StopImmediatePropagation;
                 SetTimeout [ DispatchEvent (target (enterPress false true false false))
                                (KeySwapAlt.createFakeEvent "Shift+Enter") ] 10 ]);
              (withTarget (target (enterPress false true false false))
                 (KeySwapAlt.createFakeEvent "Shift+Enter"), []) ].
Proof.
  refine (older_send_fallback_breaks_the_line
            (freshPage KeySwapAlt.DEFAULT_SETTINGS noSendButton)
            (enterPress false true false false) 2 5 _ _ _ _ _ _).
  - reflexivity.
  - intros b H; discriminate.
  - reflexivity.
  - reflexivity.
  - lia.
  - lia.
Defined.

Lemma fake_Enter_under_swapped (d : Document) (on : option nat) :
  KeySwapAlt.keyHandler swapped d (withTarget on (KeySwapAlt.createFakeEvent "Enter"))
  = [ PreventDefault; StopImmediatePropagation;
      SetTimeout [ DispatchEvent on (KeySwapAlt.createFakeEvent "Shift+Enter") ] 10 ].
Proof. reflexivity. Qed.

Lemma fake_Shift_Enter_under_swapped (d : Document) (on : option nat) :
  noClickableButton d ->
  KeySwapAlt.keyHandler swapped d (withTarget on (KeySwapAlt.createFakeEvent "Shift+Enter"))
  = [ PreventDefault; StopImmediatePropagation;
      SetTimeout [ DispatchEvent on (KeySwapAlt.createFakeEvent "Enter") ] 10 ].
Proof.
  intros Hno.
  change (KeySwapAlt.keyHandler swapped d
            (withTarget on (KeySwapAlt.createFakeEvent "Shift+Enter")))
    with (KeySwapAlt.convert d (withTarget on (KeySwapAlt.createFakeEvent "Shift+Enter"))
            true (Some "Enter")).
  rewrite (convert_send_without_button _ _ Hno). reflexivity.
Qed.

Lemma pingPongOn_fire (on : option nat) (fuel : nat) (p : Page) :
  pingPongOn on p ->
  fire KeySwapAlt.listener fuel p = None
  \/ exists p', fire KeySwapAlt.listener fuel p = Some p' /\ pingPongOn on p'.
Proof.
  intros (Hs & Hno & t & action & Ha & Ht).
  destruct p as [s g els n d c ts h]; simpl in Hs, Hno, Ht; subst s ts.
  unfold fire; cbn [timers callback due].
  destruct fuel as [|fuel]; [ left; reflexivity | ].
  rewrite perform_dispatch. unfold KeySwapAlt.listener.
  cbn [currentSettings document withClock withTimers].
  destruct Ha; subst action.
  - rewrite fake_Enter_under_swapped.
    destruct fuel as [|[|[|[|fuel]]]]; try (left; reflexivity).
    right. eexists. split; [ reflexivity | ].
    split; [ reflexivity | split; [ exact Hno | ] ].
    eexists _, "Shift+Enter". split; [ right; reflexivity | reflexivity ].
  - rewrite (fake_Shift_Enter_under_swapped d on Hno).
    destruct fuel as [|[|[|[|fuel]]]]; try (left; reflexivity).
    right. eexists. split; [ reflexivity | ].
    split; [ reflexivity | split; [ exact Hno | ] ].
    eexists _, "Enter". split; [ left; reflexivity | reflexivity ].
Qed.

Lemma pingPongOn_never_settles (on : option nat) (rounds fuel : nat) (p : Page) :
  pingPongOn on p -> settle KeySwapAlt.listener rounds fuel p = None.
Proof.
  revert p. induction rounds as [|rounds IH]; intros p Hp.
  - destruct Hp as (_ & _ & t & action & _ & Ht). simpl. rewrite Ht. reflexivity.
  - pose proof Hp as (_ & _ & t & action & _ & Ht).
    simpl. rewrite Ht.
    destruct (pingPongOn_fire on fuel p Hp) as [E | (p' & E & Hp')]; rewrite E.
    + reflexivity.
    + apply IH; exact Hp'.
Qed.

(** X15.  The older remapper with Shift+Enter as the send chord and Enter
    as the newline chord, and no send button that can be clicked: after a
    press of plain Enter or of Shift+Enter the handler answers each of its
    own fake events with another one, so the page never comes to rest, no
    matter how many timer rounds and how much fuel the run is given. *)
Theorem older_remapper_never_settles
    (p : Page) (event : KeyboardEvent) (rounds fuel : nat) :
  currentSettings p = swapped ->
  noClickableButton (document p) ->
  timers p = [] ->
  key event = "Enter" ->
  altKey event = false -> ctrlKey event = false -> metaKey event = false ->
  press KeySwapAlt.listener rounds fuel event p = None.
Proof.
  intros Hs Hno Ht K A C M.
  destruct p as [s g els n d c ts h]; simpl in Hs, Hno, Ht; subst s ts.
  unfold press, keydown, KeySwapAlt.listener; cbn [currentSettings document].
  destruct event as [tg k cd kc w sh al ct me bu ca co]; simpl in K, A, C, M; subst.
  destruct sh.
  - change (KeySwapAlt.keyHandler swapped d
              (mkKeyboardEvent tg "Enter" cd kc w true false false false bu ca co))
      with (KeySwapAlt.convert d
              (mkKeyboardEvent tg "Enter" cd kc w true false false false bu ca co)
              true (Some "Enter")).
    rewrite (convert_send_without_button _ _ Hno). unfold fakeSend.
    destruct fuel as [|[|[|[|fuel]]]]; try reflexivity.
    cbn [perform target]. cbv beta iota.
    apply (pingPongOn_never_settles tg).
    split; [ reflexivity | split; [ exact Hno | ] ].
    eexists _, "Enter". split; [ left; reflexivity | reflexivity ].
  - change (KeySwapAlt.keyHandler swapped d
              (mkKeyboardEvent tg "Enter" cd kc w false false false false bu ca co))
      with [ PreventDefault; StopImmediatePropagation;
             SetTimeout [ DispatchEvent tg (KeySwapAlt.createFakeEvent "Shift+Enter") ] 10 ].
    destruct fuel as [|[|[|[|fuel]]]]; try reflexivity.
    cbn [perform]. cbv beta iota.
    apply (pingPongOn_never_settles tg).
    split; [ reflexivity | split; [ exact Hno | ] ].
    eexists _, "Shift+Enter". split; [ right; reflexivity | reflexivity ].
Qed.

Lemma older_remapper_never_settles_witness :
  press KeySwapAlt.listener 1000 1000 (enterPress true false false false)
    (freshPage swapped (mkDocument (Some (mkButton 1 true)) None None)) = None.
Proof.
  refine (older_remapper_never_settles
            (freshPage swapped (mkDocument (Some (mkButton 1 true)) None None))
            (enterPress true false false false) 1000 1000 _ _ _ _ _ _ _);
    try reflexivity.
  intros b H. injection H as <-. reflexivity.
Defined.

(** ** The install listener *)

(** X16.  The install listener writes exactly when the reason is install
    or update, the store answers, and the store holds the empty string for
    sendAction or for newlineAction; it then sets both keys to the
    defaults.  In every other case, an empty store included, the store is
    left as it is.  Run twice for the same reason it does what it does
    when run once. *)
Theorem onInstalled_writes_exactly_over_an_empty_string
    (reason : string) (store : ChromeStorage.Sync) :
  Background.onInstalled reason store
  = (if ((reason === "install") || (reason === "update"))
        && negb (ChromeStorage.failing store)
        && ((ChromeStorage.items store !! "sendAction" ==? "")
            || (ChromeStorage.items store !! "newlineAction" ==? ""))
     then ChromeStorage.mkSync
            (<["sendAction" := "Enter"]>
               (<["newlineAction" := "Shift+Enter"]> (ChromeStorage.items store)))
            false
     else store)
  /\ Background.onInstalled reason (Background.onInstalled reason store)
     = Background.onInstalled reason store.
Proof.
  assert (Char : forall st,
    Background.onInstalled reason st
    = (if ((reason === "install") || (reason === "update"))
          && negb (ChromeStorage.failing st)
          && ((ChromeStorage.items st !! "sendAction" ==? "")
              || (ChromeStorage.items st !! "newlineAction" ==? ""))
       then ChromeStorage.mkSync
              (<["sendAction" := "Enter"]>
                 (<["newlineAction" := "Shift+Enter"]> (ChromeStorage.items st)))
              false
       else st)).
  { intros st. unfold Background.onInstalled, ChromeStorage.get, ChromeStorage.set.
    destruct ((reason === "install") || (reason === "update")); [ | reflexivity ].
    destruct st as [it fl]; simpl. destruct fl; simpl; [ reflexivity | ].
    unfold truthyString.
    destruct (it !! "sendAction") as [v|]; destruct (it !! "newlineAction") as [w|]; simpl;
      try destruct (v === ""); try destruct (w === ""); reflexivity. }
  split; [ apply Char | ].
  rewrite (Char store).
  destruct (((reason === "install") || (reason === "update"))
            && negb (ChromeStorage.failing store)
            && ((ChromeStorage.items store !! "sendAction" ==? "")
                || (ChromeStorage.items store !! "newlineAction" ==? ""))) eqn:W.
  - rewrite Char. simpl.
    rewrite lookup_insert_eq.
    rewrite lookup_insert_ne by discriminate. rewrite lookup_insert_eq.
    simpl. rewrite !andb_false_r. reflexivity.
  - rewrite Char, W. reflexivity.
Qed.

(** X17.  After the install listener has run on a store that answers, a
    read with the defaults gives a sendAction and a newlineAction that are
    both truthy, whatever the store held before. *)
Theorem settings_are_truthy_after_install
    (reason : string) (store : ChromeStorage.Sync) :
  reason = "install" \/ reason = "update" ->
  ChromeStorage.failing store = false ->
  exists s,
    ChromeStorage.get Background.DEFAULT_SETTINGS (Background.onInstalled reason store)
    = Some s
    /\ truthyString (sendAction s) = true
    /\ truthyString (newlineAction s) = true.
Proof.
  intros Hr Hf.
  assert (R : (reason === "install") || (reason === "update") = true)
    by (destruct Hr; subst; reflexivity).
  unfold Background.onInstalled. rewrite R.
  destruct store as [it fl]; simpl in Hf; subst fl.
  unfold ChromeStorage.get at 2. cbn [ChromeStorage.failing ChromeStorage.items].
  cbn [sendAction newlineAction].
  set (v := default (sendAction Background.DEFAULT_SETTINGS) (it !! "sendAction")).
  set (w := default (newlineAction Background.DEFAULT_SETTINGS) (it !! "newlineAction")).
  destruct (negb (truthyString v) || negb (truthyString w)) eqn:Cnd.
  - unfold ChromeStorage.set. cbn [ChromeStorage.failing ChromeStorage.items].
    eexists. split.
    + unfold ChromeStorage.get. cbn [ChromeStorage.failing ChromeStorage.items].
      rewrite lookup_insert_eq.
      rewrite lookup_insert_ne by discriminate. rewrite lookup_insert_eq.
      reflexivity.
    + split; reflexivity.
  - apply orb_false_elim in Cnd. destruct Cnd as [C1 C2].
    apply negb_false_iff in C1. apply negb_false_iff in C2.
    exists {| sendAction := v; newlineAction := w |}.
    split; [ reflexivity | split; assumption ].
Qed.

Lemma settings_are_truthy_after_install_witness :
  exists s,
    ChromeStorage.get Background.DEFAULT_SETTINGS
      (Background.onInstalled "update"
         (ChromeStorage.mkSync (<["sendAction" := ""]> ∅) false))
    = Some s
    /\ truthyString (sendAction s) = true
    /\ truthyString (newlineAction s) = true.
Proof.
  refine (settings_are_truthy_after_install "update"
            (ChromeStorage.mkSync (<["sendAction" := ""]> ∅) false) _ _).
  - right; reflexivity.
  - reflexivity.
Defined.

(** ** From the popup to the tabs *)

(** After the conflict resolution the two selects differ. *)
Lemma change_distinct_helper (target : Popup.Select) (chosen : string) (ui : Popup.Selects) :
  Popup.sendSelect
    (Popup.handleDuplicateKeys (Popup.id target) chosen (Popup.setValue target chosen ui))
  <> Popup.newlineSelect
       (Popup.handleDuplicateKeys (Popup.id target) chosen (Popup.setValue target chosen ui)).
Proof.
  destruct (String.eqb_spec (Popup.value (otherControl target) ui) chosen) as [Hc | Hc].
  - rewrite (handleDuplicateKeys_collision _ _ _ Hc).
    destruct ui as [sv nv]; destruct target; simpl in *;
      destruct (chosen === "Enter") eqn:E;
      try (apply String.eqb_eq in E; subst; discriminate);
      apply String.eqb_neq in E; congruence.
  - rewrite (handleDuplicateKeys_no_collision _ _ _ Hc).
    destruct ui as [sv nv]; destruct target; simpl in *; congruence.
Qed.

(** X18.  What the popup saves is what it shows when it is opened again:
    when the store accepts the write, [loadSettings] on the new store sets
    the two selects to the values they had after the change, a read with
    the defaults gives the settings that were saved, and one message per
    tab was sent, in the order of the tabs.  When the store rejects the
    write it is left as it was and no message is sent. *)
Theorem popup_reopens_with_saved_choice
    (target : Popup.Select) (chosen : string) (tabs : list nat)
    (ui ui0 : Popup.Selects) (store : ChromeStorage.Sync) :
  let '(ui', newSettings, store', sent) := Popup.change target chosen tabs ui store in
  if ChromeStorage.failing store
  then store' = store /\ sent = [] /\ Popup.loadSettings store' ui0 = ui0
  else Popup.loadSettings store' ui0 = ui'
       /\ ChromeStorage.get Popup.DEFAULT_SETTINGS store' = Some newSettings
       /\ map fst sent = tabs
       /\ Forall (fun tm => type (snd tm) = "SETTINGS_UPDATED") sent.
Proof.
  unfold Popup.change, Popup.handleSettingChange, Popup.saveSettings, ChromeStorage.set.
  set (ui' := Popup.handleDuplicateKeys _ _ _).
  destruct store as [it fl]; simpl. destruct fl; simpl.
  - split; [ reflexivity | split; reflexivity ].
  - unfold Popup.loadSettings, ChromeStorage.get; simpl.
    rewrite lookup_insert_eq.
    rewrite lookup_insert_ne by discriminate. rewrite lookup_insert_eq. simpl.
    split; [ destruct ui'; reflexivity | split; [ reflexivity | split ] ].
    + rewrite map_map. simpl. apply map_id.
    + apply List.Forall_forall. intros [tab m] Hin.
      apply in_map_iff in Hin. destruct Hin as (x & Hx & _).
      inversion Hx. reflexivity.
Qed.

(** X19.  Every tab ends up with the settings the popup saved.  When the
    store accepts the write, each tab that was open gets one message, and
    a tab that receives a message has the saved settings as
    [currentSettings]; a tab that reads the new store in [loadSettings],
    whether or not any tab was open at the change, has them too; this
    holds in either configurable remapper, and in the saved settings
    sendAction and newlineAction differ. *)
Theorem tabs_follow_the_popup
    (target : Popup.Select) (chosen : string) (tabs : list nat)
    (ui ui' : Popup.Selects) (store store' : ChromeStorage.Sync)
    (newSettings : Settings) (sent : list (nat * Message)) (p : Page) :
  Popup.change target chosen tabs ui store = (ui', newSettings, store', sent) ->
  ChromeStorage.failing store = false ->
  (forall tab m, In (tab, m) sent ->
     In tab tabs
     /\ m = SETTINGS_UPDATED newSettings
     /\ currentSettings (KeySwap.onMessage m p) = newSettings
     /\ currentSettings (KeySwapAlt.onMessage m p) = newSettings)
  /\ (forall tab, In tab tabs -> In (tab, SETTINGS_UPDATED newSettings) sent)
  /\ currentSettings (KeySwap.loadSettings store' p) = newSettings
  /\ currentSettings (KeySwapAlt.loadSettings store' p) = newSettings
  /\ sendAction newSettings <> newlineAction newSettings.
Proof.
  intros Hch Hf.
  pose proof (change_distinct_helper target chosen ui) as Hd.
  unfold Popup.change, Popup.handleSettingChange, Popup.saveSettings, ChromeStorage.set in Hch.
  rewrite Hf in Hch. simpl in Hch.
  injection Hch as <- <- <- <-.
  split; [ | split; [ | split; [ | split ] ] ].
  - intros tab m Hin.
    apply in_map_iff in Hin. destruct Hin as (x & Hx & Hxin).
    injection Hx as -> <-.
    split; [ exact Hxin | split; [ reflexivity | split ] ].
    + unfold KeySwap.onMessage; simpl.
      destruct (forEachProseMirror _ (elements p) (closures p)); reflexivity.
    + unfold KeySwapAlt.onMessage; simpl.
      destruct (onFirstProseMirror _ (elements p) (closures p)); reflexivity.
  - intros tab Hin. apply in_map_iff. exists tab. split; [ reflexivity | exact Hin ].
  - unfold KeySwap.loadSettings, ChromeStorage.get; simpl.
    rewrite lookup_insert_eq.
    rewrite lookup_insert_ne by discriminate. rewrite lookup_insert_eq. reflexivity.
  - unfold KeySwapAlt.loadSettings, ChromeStorage.get; simpl.
    rewrite lookup_insert_eq.
    rewrite lookup_insert_ne by discriminate. rewrite lookup_insert_eq. reflexivity.
  - cbn [sendAction newlineAction].
    assert (V : Popup.value target (Popup.setValue target chosen ui) = chosen)
      by (destruct target; reflexivity).
    rewrite V. exact Hd.
Qed.

Lemma tabs_follow_the_popup_witness :
  snd (Popup.change Popup.SendSelect "Shift+Enter" []
         (Popup.mkSelects "Enter" "Shift+Enter") emptyStore) = []
  /\ currentSettings
       (KeySwap.loadSettings
          (snd (fst (Popup.change Popup.SendSelect "Shift+Enter" []
                       (Popup.mkSelects "Enter" "Shift+Enter") emptyStore)))
          threeElements)
     = {| sendAction := "Shift+Enter"; newlineAction := "Enter" |}.
Proof.
  split; [ reflexivity | ].
  exact (proj1 (proj2 (proj2 (tabs_follow_the_popup Popup.SendSelect "Shift+Enter" []
                                (Popup.mkSelects "Enter" "Shift+Enter") _ emptyStore _ _ _
                                threeElements eq_refl eq_refl)))).
Defined.

(** X20.  The conflict resolution keeps the selects inside the four
    chords: when the other select holds a chord and the user picks a
    chord, both selects hold chords after the change, and the other select
    holds its old chord, Enter or Shift+Enter.  Alt+Enter and Ctrl+Enter
    are never handed out by the resolution, and the value the changed
    select had before plays no part. *)
Theorem change_stays_within_the_chords
    (target : Popup.Select) (chosen : string) (ui : Popup.Selects) :
  In chosen chords ->
  In (Popup.value (otherControl target) ui) chords ->
  let ui' := Popup.handleDuplicateKeys (Popup.id target) chosen
               (Popup.setValue target chosen ui) in
  In (Popup.sendSelect ui') chords
  /\ In (Popup.newlineSelect ui') chords
  /\ (Popup.value (otherControl target) ui' = Popup.value (otherControl target) ui
      \/ Popup.value (otherControl target) ui' = "Enter"
      \/ Popup.value (otherControl target) ui' = "Shift+Enter")
  /\ (forall previous,
        Popup.handleDuplicateKeys (Popup.id target) chosen
          (Popup.setValue target chosen (Popup.setValue target previous ui))
        = ui').
Proof.
  intros Hc Ho ui'. subst ui'.
  assert (Last : forall previous,
             Popup.handleDuplicateKeys (Popup.id target) chosen
               (Popup.setValue target chosen (Popup.setValue target previous ui))
             = Popup.handleDuplicateKeys (Popup.id target) chosen
                 (Popup.setValue target chosen ui)).
  { intros previous.
    replace (Popup.setValue target chosen (Popup.setValue target previous ui))
      with (Popup.setValue target chosen ui) by (destruct target; reflexivity).
    reflexivity. }
  cut (In (Popup.sendSelect
             (Popup.handleDuplicateKeys (Popup.id target) chosen
                (Popup.setValue target chosen ui))) chords
       /\ In (Popup.newlineSelect
                (Popup.handleDuplicateKeys (Popup.id target) chosen
                   (Popup.setValue target chosen ui))) chords
       /\ (Popup.value (otherControl target)
             (Popup.handleDuplicateKeys (Popup.id target) chosen
                (Popup.setValue target chosen ui))
           = Popup.value (otherControl target) ui
           \/ Popup.value (otherControl target)
                (Popup.handleDuplicateKeys (Popup.id target) chosen
                   (Popup.setValue target chosen ui)) = "Enter"
           \/ Popup.value (otherControl target)
                (Popup.handleDuplicateKeys (Popup.id target) chosen
                   (Popup.setValue target chosen ui)) = "Shift+Enter")).
  { intros (H1 & H2 & H3). split; [ exact H1 | split; [ exact H2 | split; [ exact H3 | exact Last ] ] ]. }
  clear Last.
  destruct (String.eqb_spec (Popup.value (otherControl target) ui) chosen) as [E | E].
  - rewrite (handleDuplicateKeys_collision _ _ _ E).
    destruct ui as [sv nv]; destruct target; simpl in *; subst;
      (split; [ | split ]);
      try exact Hc;
      destruct (chosen === "Enter"); simpl; tauto.
  - rewrite (handleDuplicateKeys_no_collision _ _ _ E).
    destruct ui as [sv nv]; destruct target; simpl in *;
      (split; [ | split ]);
      try assumption; left; reflexivity.
Qed.

Lemma change_stays_within_the_chords_witness :
  In "Ctrl+Enter" chords
  /\ Popup.handleDuplicateKeys "newline-action" "Ctrl+Enter"
       (Popup.mkSelects "Ctrl+Enter" "Ctrl+Enter")
     = Popup.handleDuplicateKeys "newline-action" "Ctrl+Enter"
         (Popup.setValue Popup.NewlineSelect "Ctrl+Enter"
            (Popup.mkSelects "Ctrl+Enter" "Alt+Enter")).
Proof.
  assert (Hc : In "Ctrl+Enter" chords) by (simpl; tauto).
  split; [ exact Hc | ].
  exact (proj2 (proj2 (proj2 (change_stays_within_the_chords Popup.NewlineSelect "Ctrl+Enter"
                                (Popup.mkSelects "Ctrl+Enter" "Alt+Enter") Hc Hc)))
           "Ctrl+Enter").
Defined.

(** ** What content.js looks at *)

(** X21.  The listener of content.js looks at the key, Shift, Alt and
    the target of an event and at nothing else: two events that agree on
    these get the same calls.  Ctrl and Meta in particular make no
    difference, so Ctrl+Enter and Meta+Enter are converted like a plain
    Enter. *)
Theorem enterfix_listener_reads_key_shift_alt
    (e e' : KeyboardEvent) :
  key e = key e' -> shiftKey e = shiftKey e' -> altKey e = altKey e' ->
  target e = target e' ->
  EnterFix.keydownListener e = EnterFix.keydownListener e'.
Proof.
  intros K S A T. unfold EnterFix.keydownListener. rewrite K, S, A, T. reflexivity.
Qed.

Lemma enterfix_listener_reads_key_shift_alt_witness :
  EnterFix.keydownListener (enterPress false false true true)
  = EnterFix.keydownListener (enterPress false false false false).
Proof.
  exact (enterfix_listener_reads_key_shift_alt
           (enterPress false false true true) (enterPress false false false false)
           eq_refl eq_refl eq_refl eq_refl).
Defined.

(** ** What the observer binds *)

Lemma forEach_Forall2 (R : Element -> Element -> Prop)
    (f : nat -> Element -> Element * nat) (els : list Element) (n : nat) :
  (forall n el, classProseMirror el = true -> R el (fst (f n el))) ->
  (forall el, classProseMirror el = false -> R el el) ->
  Forall2 R els (fst (forEachProseMirror f els n)).
Proof.
  intros Hf Hid. revert n. induction els as [|el rest IH]; intros n; simpl.
  - constructor.
  - destruct (classProseMirror el) eqn:C.
    + specialize (Hf n el C). destruct (f n el) as [el' n1]; simpl in Hf.
      specialize (IH n1). destruct (forEachProseMirror f rest n1) as [rest' n2].
      simpl in *. constructor; assumption.
    + specialize (IH n). destruct (forEachProseMirror f rest n) as [rest' n2].
      simpl in *. constructor; [ apply Hid; exact C | exact IH ].
Qed.

(** X22.  The observer callback of the remapper with the guard flag goes
    by the marker alone.  Element by element, in document order: a
    ProseMirror element with no marker, an empty marker or the marker
    "false" is bound and marked "true"; every other element is left
    exactly as it is, so an editor that carries the marker "true" without
    a listener is not bound by the observer. *)
Theorem observer_goes_by_the_marker (p : Page) :
  Forall2 observed (elements p) (elements (KeySwap.tryAttachHandler p))
  /\ closures p <= closures (KeySwap.tryAttachHandler p)
  /\ currentSettings (KeySwap.tryAttachHandler p) = currentSettings p
  /\ timers (KeySwap.tryAttachHandler p) = timers p.
Proof.
  unfold KeySwap.tryAttachHandler.
  match goal with
  | |- context [forEachProseMirror ?f (elements p) (closures p)] =>
      pose proof (forEach_Forall2 observed f (elements p) (closures p)) as H;
      assert (Hle : forall els n, n <= snd (forEachProseMirror f els n))
  end.
  { induction els as [|el rest IH]; intros n; simpl; [ lia | ].
    destruct (classProseMirror el).
    - destruct (negb (truthy (dataset el !! "keySwapAttached"))
                || (dataset el !! "keySwapAttached" ==? "false")).
      + specialize (IH (S n)).
        destruct (forEachProseMirror _ rest (S n)) as [rest' n2]; simpl in *. lia.
      + specialize (IH n).
        destruct (forEachProseMirror _ rest n) as [rest' n2]; simpl in *. lia.
    - specialize (IH n).
      destruct (forEachProseMirror _ rest n) as [rest' n2]; simpl in *. lia. }
  specialize (Hle (elements p) (closures p)).
  destruct (forEachProseMirror _ (elements p) (closures p)) as [els1 n1].
  simpl in *. split; [ | split; [ exact Hle | split; reflexivity ] ].
  apply H.
  - intros n el C. unfold observed. rewrite C; simpl.
    destruct (negb (truthy (dataset el !! "keySwapAttached"))
              || (dataset el !! "keySwapAttached" ==? "false")) eqn:E; cbn [fst].
    + destruct (attachKeyHandler_marked n el) as [M Cl].
      split; [ rewrite Cl; exact C | split; [ exact M | ] ].
      intros Ht. exists n.
      destruct el as [cls hd ls ds]; simpl in Ht; subst ls.
      destruct hd as [h|]; simpl; rewrite ?Nat.eqb_refl; split; reflexivity.
    + reflexivity.
  - intros el C. unfold observed. rewrite C. reflexivity.
Qed.

(** ** Rebinding on a settings message, on the pages a tab can reach *)

Lemma attachKeyHandler_alt_tracked (n : nat) (el : Element) :
  tracked n el -> tracked (S n) (KeySwapAlt.attachKeyHandler n el).
Proof.
  intros [Ht _]. destruct el as [cls hd ls ds]; simpl in Ht; subst ls.
  split.
  - destruct hd as [h|]; simpl; rewrite ?Nat.eqb_refl; reflexivity.
  - destruct hd as [h|]; simpl; rewrite ?Nat.eqb_refl; simpl;
      intros g [<- | []]; lia.
Qed.

Lemma setDataset_tracked (n : nat) (name v : string) (el : Element) :
  tracked n el -> tracked n (setDataset name v el).
Proof. intros H. exact H. Qed.

Lemma onFirst_tracked (f : nat -> Element -> Element * nat) (els : list Element) (n : nat) :
  (forall n el, tracked n el -> n <= snd (f n el) /\ tracked (snd (f n el)) (fst (f n el))) ->
  Forall (tracked n) els ->
  n <= snd (onFirstProseMirror f els n)
  /\ Forall (tracked (snd (onFirstProseMirror f els n))) (fst (onFirstProseMirror f els n)).
Proof.
  intros Hf. revert n. induction els as [|el rest IH]; intros n Hall; simpl.
  - split; [ lia | constructor ].
  - inversion Hall as [|? ? Hel Hrest]; subst.
    destruct (classProseMirror el).
    + destruct (Hf n el Hel) as [Hle Hel'].
      destruct (f n el) as [el' n1]; simpl in *.
      split; [ exact Hle | ].
      constructor; [ exact Hel' | ].
      eapply Forall_impl; [ exact Hrest | ].
      intros x Hx. eapply tracked_mono; [ exact Hle | exact Hx ].
    + destruct (IH n Hrest) as [Hle' Hall'].
      destruct (onFirstProseMirror f rest n) as [rest' n2]; simpl in *.
      split; [ exact Hle' | ].
      constructor; [ | exact Hall' ].
      eapply tracked_mono; [ exact Hle' | exact Hel ].
Qed.

Lemma tryAttachHandler_alt_wellTracked (p : Page) :
  wellTracked p -> wellTracked (KeySwapAlt.tryAttachHandler p).
Proof.
  unfold wellTracked, KeySwapAlt.tryAttachHandler. intros Hwt.
  match goal with
  | |- context [onFirstProseMirror ?f _ _] =>
      pose proof (onFirst_tracked f (elements p) (closures p)) as H
  end.
  destruct H as [_ H].
  - intros n el Hel.
    destruct (negb (truthy (dataset el !! "keySwapAttached"))); cbn [fst snd].
    + split; [ lia | apply attachKeyHandler_alt_tracked; exact Hel ].
    + split; [ lia | exact Hel ].
  - exact Hwt.
  - destruct (onFirstProseMirror _ (elements p) (closures p)); exact H.
Qed.

Lemma onMessage_alt_wellTracked (m : Message) (p : Page) :
  wellTracked p -> wellTracked (KeySwapAlt.onMessage m p).
Proof.
  intros Hwt. unfold KeySwapAlt.onMessage.
  destruct (type m === "SETTINGS_UPDATED"); [ | exact Hwt ].
  unfold wellTracked in *. cbn [elements closures withSettings].
  match goal with
  | |- context [onFirstProseMirror ?f _ _] =>
      pose proof (onFirst_tracked f (elements p) (closures p)) as H
  end.
  destruct H as [_ H].
  - intros n el Hel. cbn [fst snd].
    split; [ lia | ].
    apply attachKeyHandler_alt_tracked. apply setDataset_tracked. exact Hel.
  - exact Hwt.
  - destruct (onFirstProseMirror _ (elements p) (closures p)); exact H.
Qed.

Lemma tabStepAlt_wellTracked (p p' : Page) :
  tabStepAlt p p' -> wellTracked p -> wellTracked p'.
Proof.
  intros Hstep Hwt. destruct Hstep as [store p | p | m p | fuel e p p' H | fuel p p' H | els p H].
  - unfold KeySwapAlt.loadSettings.
    destruct (ChromeStorage.get KeySwapAlt.DEFAULT_SETTINGS store); exact Hwt.
  - apply tryAttachHandler_alt_wellTracked; exact Hwt.
  - apply onMessage_alt_wellTracked; exact Hwt.
  - unfold keydown in H. apply perform_keeps_elements in H.
    destruct H as [He Hc]. unfold wellTracked. rewrite He, Hc. exact Hwt.
  - unfold fire in H. destruct (timers p) as [|t rest].
    + injection H as <-. exact Hwt.
    + apply perform_keeps_elements in H.
      destruct H as [He Hc]. unfold wellTracked. rewrite He, Hc. exact Hwt.
  - unfold wellTracked in *. simpl. apply List.Forall_forall. intros el Hin.
    destruct (H el Hin) as [Hold | Hnew].
    + rewrite List.Forall_forall in Hwt. apply Hwt; exact Hold.
    + apply unbound_tracked; exact Hnew.
Qed.

(** On every page a tab can reach, in either configurable remapper, the
    listeners of each element are those its expando property names. *)
Lemma tabReachable_wellTracked (p : Page) : tabReachable p -> wellTracked p.
Proof.
  intros Hr. induction Hr as [s d els Hall | p p' _ IH Hstep].
  - unfold wellTracked; simpl. eapply Forall_impl; [ exact Hall | ].
    intros el. apply unbound_tracked.
  - eapply tabStep_wellTracked; eassumption.
Qed.

Lemma tabReachableAlt_wellTracked (p : Page) : tabReachableAlt p -> wellTracked p.
Proof.
  intros Hr. induction Hr as [s d els Hall | p p' _ IH Hstep].
  - unfold wellTracked; simpl. eapply Forall_impl; [ exact Hall | ].
    intros el. apply unbound_tracked.
  - eapply tabStepAlt_wellTracked; eassumption.
Qed.

Lemma rebound_one_listener (lo hi : nat) (els els' : list Element) (el' : Element) :
  Forall2 (rebound lo hi) els els' ->
  In el' els' ->
  classProseMirror el' = true ->
  length (keydownCapture el') = 1.
Proof.
  intros Hall Hin Hcls.
  destruct (rebound_origin _ _ _ _ _ Hall Hin) as (el & _ & Hc & Hr).
  rewrite Hc in Hcls. rewrite Hcls in Hr.
  destruct Hr as (h & L & _). rewrite L. reflexivity.
Qed.

(** C6, as the code has it.  Take a page a tab of the remapper with the
    guard flag can reach, and a page a tab of the older remapper can
    reach: each starts with nothing bound and goes on by settings reads,
    observer runs, messages, key presses, timers, and changes of the
    document by the host page that keep elements or add elements of its
    own.  After a SETTINGS_UPDATED message [currentSettings] is the
    settings of the message, and a handler reads that variable when it
    runs, so every handler uses them.  The remapper with the guard flag
    leaves every ProseMirror element with exactly one listener, created
    while the message was processed, and none of the listeners that were
    attached before; the page it leaves can be reached.  The older
    remapper does so for the first ProseMirror element of the document
    only and leaves every other element as it was. *)
Theorem settings_message_rebinds (p q : Page) (s : Settings) :
  tabReachable p ->
  tabReachableAlt q ->
  (let p' := KeySwap.onMessage (SETTINGS_UPDATED s) p in
   currentSettings p' = s
   /\ (forall event,
         KeySwap.listener p' event = KeySwap.keyHandler s false (document p) event)
   /\ Forall2 (rebound (closures p) (closures p')) (elements p) (elements p')
   /\ (forall el',
         In el' (elements p') -> classProseMirror el' = true ->
         length (keydownCapture el') = 1)
   /\ (forall el' h,
         In el' (elements p') -> classProseMirror el' = true ->
         In h (keydownCapture el') ->
         keydownCapture el' = [h]
         /\ forall el, In el (elements p) -> ~ In h (keydownCapture el))
   /\ tabReachable p')
  /\ (let q' := KeySwapAlt.onMessage (SETTINGS_UPDATED s) q in
      currentSettings q' = s
      /\ (forall event,
            KeySwapAlt.listener q' event = KeySwapAlt.keyHandler s (document q) event)
      /\ (forall pre el post,
            elements q = pre ++ el :: post ->
            Forall (fun x => classProseMirror x = false) pre ->
            classProseMirror el = true ->
            exists el',
              elements q' = pre ++ el' :: post
              /\ rebound (closures q) (closures q') el el')
      /\ (Forall (fun x => classProseMirror x = false) (elements q) ->
          elements q' = elements q)
      /\ tabReachableAlt q').
Proof.
  intros Hp Hq.
  destruct (message_rebinds_tracked_page p s (tabReachable_wellTracked p Hp)) as [A _].
  destruct (message_rebinds_tracked_page q s (tabReachableAlt_wellTracked q Hq)) as [_ B].
  cbv zeta in A, B. cbv zeta.
  destruct A as (A1 & A2 & A3 & A4 & _).
  destruct B as (B1 & B2 & B3 & B4).
  split.
  - split; [ exact A1 | split; [ exact A2 | split; [ exact A3 | split; [ | split ] ] ] ].
    + intros el' Hin Hcls. eapply rebound_one_listener; eassumption.
    + exact A4.
    + eapply tabNext; [ exact Hp | apply tabMessage ].
  - split; [ exact B1 | split; [ exact B2 | split; [ exact B3 | split; [ exact B4 | ] ] ] ].
    eapply tabNextAlt; [ exact Hq | apply tabMessageAlt ].
Qed.

(** A tab of the remapper with the guard flag after the observer has
    bound its two editors: the closures 0 and 1 are attached. *)
Lemma boundEditors_reachable : tabReachable (KeySwap.tryAttachHandler threeElements).
Proof.
  apply tabNext with (p := threeElements); [ | apply tabObserve ].
  unfold threeElements. apply tabStart. repeat constructor.
Defined.

Lemma twoEditors_reachable : tabReachableAlt twoEditors.
Proof.
  unfold twoEditors.
  eapply tabNextAlt; [ | apply tabObserveAlt ].
  apply tabStartAlt. repeat constructor.
Defined.

Lemma settings_message_rebinds_witness :
  tabReachable (KeySwap.tryAttachHandler threeElements)
  /\ tabReachableAlt twoEditors
  /\ map keydownCapture (elements (KeySwap.tryAttachHandler threeElements))
     = [[0]; []; [1]]
  /\ map keydownCapture
       (elements (KeySwap.onMessage (SETTINGS_UPDATED swapped)
                    (KeySwap.tryAttachHandler threeElements)))
     = [[2]; []; [3]]
  /\ (forall el' h,
        In el' (elements (KeySwap.onMessage (SETTINGS_UPDATED swapped)
                            (KeySwap.tryAttachHandler threeElements))) ->
        classProseMirror el' = true ->
        In h (keydownCapture el') ->
        keydownCapture el' = [h]
        /\ forall el, In el (elements (KeySwap.tryAttachHandler threeElements)) ->
                      ~ In h (keydownCapture el)).
Proof.
  split; [ exact boundEditors_reachable | ].
  split; [ exact twoEditors_reachable | ].
  split; [ vm_compute; reflexivity | ].
  split; [ vm_compute; reflexivity | ].
  pose proof (proj1 (settings_message_rebinds _ _ swapped
                       boundEditors_reachable twoEditors_reachable)) as H.
  cbv zeta in H. destruct H as (_ & _ & _ & _ & H & _). exact H.
Defined.

(** ** A reset timer left over *)

(** The reset timer of an earlier conversion can outlive its flag (a
    message clears the flag at once).  A press converted while that timer
    is pending has its flag lowered by it before the fake event is
    dispatched, and under Shift+Enter = send the fake Shift+Enter is then
    suppressed and clicks the send button. *)
Lemma stale_reset_clears_the_guard :
  option_map history
    (press KeySwap.listener 3 6 (enterPress false false false false)
       (mkPage swapped false [] 0 withSendButton 0
               [ mkTimer 5 [ SetProcessingFakeEvent false ] ] []))
  = Some [ (enterPress false false false false,
            conversionOf (enterPress false false false false));
           (withTarget (Some 0) shiftEnterKeydown,
            [ PreventDefault; StopImmediatePropagation; Click (mkButton 1 false) ]) ].
Proof. vm_compute. reflexivity. Qed.
